(** * unart: a bit-banged UART on two GPIO lines

    Shallow embedding of the receive and transmit engines of the driver
    ([unart_rx.c], [unart_tx.c], [unart.h]) and of the kernel facilities
    they are written against (kfifo, hrtimer, work items, GPIO output),
    followed by the properties of the engines.

    Conventions.
    - [int], [unsigned int] and [ktime_t] values are integers of [Z];
      [u8] values are kept in [0, 256) and every store into a [u8] field
      writes the truncation out ([to_u8]).
    - What the C code reads from its environment (the clock, the level of
      the RX line) is an argument of the embedded function.
    - Each handler runs under the engine's raw spinlock with interrupts
      off, so a handler is one atomic state transformer. *)

From Stdlib Require Import ZArith List Bool Lia.
From Stdlib Require String.
Import ListNotations.
Local Open Scope Z_scope.

(** ** Integer types *)

Definition u8_modulus : Z := 256.
Definition to_u8 (x : Z) : Z := x mod u8_modulus.
Definition is_u8 (x : Z) : Prop := 0 <= x < u8_modulus.

Definition UINT_MAX : Z := 4294967295.
Definition to_uint (x : Z) : Z := x mod (UINT_MAX + 1).

(** [clamp(val, lo, hi)] of linux/minmax.h. *)
Definition clamp (val lo hi : Z) : Z := Z.min (Z.max val lo) hi.

(** ** Constants of unart.h *)

Definition UNART_DEFAULT_RX_SKEW : Z := 30.
Definition UNART_RX_FIFO_SIZE : nat := 32.
Definition UNART_TX_FIFO_SIZE : nat := 1024.
Definition NSEC_PER_SEC : Z := 1000000000.

(** ** kfifo: bounded byte queue (linux/kfifo.h)

    A kfifo of [kfifo_size] one-byte elements; [kfifo_data] lists the
    queued elements, oldest first.  Both sizes the driver allocates are
    powers of two, so [kfifo_alloc] does not round them. *)

Record kfifo : Type := mk_kfifo {
  kfifo_size : nat;
  kfifo_data : list Z
}.

Definition kfifo_alloc (size : nat) : kfifo := mk_kfifo size [].
Definition kfifo_len (f : kfifo) : nat := length (kfifo_data f).
Definition kfifo_avail (f : kfifo) : nat := kfifo_size f - kfifo_len f.
Definition kfifo_is_full (f : kfifo) : bool := Nat.leb (kfifo_size f) (kfifo_len f).

(** Occupancy never exceeds the allocated size. *)
Definition kfifo_wf (f : kfifo) : Prop := (kfifo_len f <= kfifo_size f)%nat.

(** [kfifo_put]: stores one element; returns 0 and stores nothing when
    the fifo is full. *)
Definition kfifo_put (f : kfifo) (v : Z) : bool * kfifo :=
  if kfifo_is_full f then (false, f)
  else (true, mk_kfifo (kfifo_size f) (kfifo_data f ++ [v])).

(** [kfifo_get]: removes the oldest element; returns 0 on an empty fifo. *)
Definition kfifo_get (f : kfifo) : option Z * kfifo :=
  match kfifo_data f with
  | [] => (None, f)
  | v :: rest => (Some v, mk_kfifo (kfifo_size f) rest)
  end.

(** [kfifo_in]: copies as many elements of [buf] as fit, returns how
    many.  The length travels as an [unsigned int]; buffers are taken to
    be shorter than 2^32 bytes. *)
Definition kfifo_in (f : kfifo) (buf : list Z) : nat * kfifo :=
  let n := Nat.min (length buf) (kfifo_avail f) in
  (n, mk_kfifo (kfifo_size f) (kfifo_data f ++ firstn n buf)).

(** [kfifo_out]: removes up to [n] elements, oldest first. *)
Definition kfifo_out (f : kfifo) (n : nat) : list Z * kfifo :=
  (firstn n (kfifo_data f), mk_kfifo (kfifo_size f) (skipn n (kfifo_data f))).

(** ** hrtimer (linux/hrtimer.h) *)

Inductive hrtimer_restart : Type := HRTIMER_NORESTART | HRTIMER_RESTART.

Record hrtimer : Type := mk_hrtimer {
  hrtimer_active : bool;
  hrtimer_expires : Z
}.

(** Resolution of the clock base with high-resolution timers (HIGH_RES_NSEC). *)
Definition hrtimer_resolution : Z := 1.

Definition hrtimer_start (t : hrtimer) (tim : Z) : hrtimer := mk_hrtimer true tim.

(** [hrtimer_forward(timer, now, interval)]: moves the expiry forward by
    whole intervals until it lies after [now]; an expiry still in the
    future is left alone. *)
Definition hrtimer_forward (t : hrtimer) (now interval : Z) : hrtimer :=
  let delta := now - hrtimer_expires t in
  if delta <? 0 then t
  else
    let interval := if interval <? hrtimer_resolution
                    then hrtimer_resolution else interval in
    if interval <=? delta then
      let orun := delta / interval in
      let e := hrtimer_expires t + interval * orun in
      if now <? e then mk_hrtimer (hrtimer_active t) e
      else mk_hrtimer (hrtimer_active t) (e + interval)
    else mk_hrtimer (hrtimer_active t) (hrtimer_expires t + interval).

(** What the timer core does with the callback's answer: a timer whose
    callback answers NORESTART is left inactive, one that answers RESTART
    is queued again at the expiry the callback gave it. *)
Definition hrtimer_finish (r : hrtimer_restart) (t : hrtimer) : hrtimer :=
  match r with
  | HRTIMER_NORESTART => mk_hrtimer false (hrtimer_expires t)
  | HRTIMER_RESTART => mk_hrtimer true (hrtimer_expires t)
  end.

(** ** Work items and GPIO output *)

(** A work item is pending from [schedule_work] until the workqueue
    picks it up. *)
Record work_struct : Type := mk_work { work_pending : bool }.

Definition schedule_work (w : work_struct) : work_struct := mk_work true.

(** An output line, as the list of values handed to
    [gpiod_set_raw_value], oldest first.  [unart_tx_setup] requests the
    TX line with GPIOD_OUT_HIGH, which is its level before any write. *)
Definition gpio_desc : Type := list Z.

Definition gpiod_set_raw_value (g : gpio_desc) (value : Z) : gpio_desc := g ++ [value].
Definition gpio_level (g : gpio_desc) : Z := last g 1.

(** ** Engine state (unart.h) *)

Record unart_module_params : Type := mk_params {
  rx_skew : Z;
  rx_debug : bool
}.

Record unart_rx : Type := mk_rx {
  rx_timer : hrtimer;
  skew_percent : Z;
  rx_period : Z;
  skew : Z;
  rx_fifo : kfifo;
  push_work : work_struct;
  rx_bit_index : Z;
  rx_payload : Z;
  debug_toggle : Z
}.

Record unart_tx : Type := mk_tx {
  tx_gpio : gpio_desc;
  tx_timer : hrtimer;
  tx_period : Z;
  tx_fifo : kfifo;
  wakeup_work : work_struct;
  tx_bit_index : Z;
  tx_payload : Z
}.

Record unart : Type := mk_unart {
  rx : unart_rx;
  tx : unart_tx
}.

Definition set_rx (u : unart) (r : unart_rx) : unart := mk_unart r (tx u).

Definition rx_with_timer (r : unart_rx) (t : hrtimer) : unart_rx :=
  mk_rx t (skew_percent r) (rx_period r) (skew r) (rx_fifo r) (push_work r)
        (rx_bit_index r) (rx_payload r) (debug_toggle r).
Definition rx_with_skew_percent (r : unart_rx) (v : Z) : unart_rx :=
  mk_rx (rx_timer r) v (rx_period r) (skew r) (rx_fifo r) (push_work r)
        (rx_bit_index r) (rx_payload r) (debug_toggle r).
Definition rx_with_period (r : unart_rx) (v : Z) : unart_rx :=
  mk_rx (rx_timer r) (skew_percent r) v (skew r) (rx_fifo r) (push_work r)
        (rx_bit_index r) (rx_payload r) (debug_toggle r).
Definition rx_with_skew (r : unart_rx) (v : Z) : unart_rx :=
  mk_rx (rx_timer r) (skew_percent r) (rx_period r) v (rx_fifo r) (push_work r)
        (rx_bit_index r) (rx_payload r) (debug_toggle r).
Definition rx_with_fifo (r : unart_rx) (f : kfifo) : unart_rx :=
  mk_rx (rx_timer r) (skew_percent r) (rx_period r) (skew r) f (push_work r)
        (rx_bit_index r) (rx_payload r) (debug_toggle r).
Definition rx_with_push_work (r : unart_rx) (w : work_struct) : unart_rx :=
  mk_rx (rx_timer r) (skew_percent r) (rx_period r) (skew r) (rx_fifo r) w
        (rx_bit_index r) (rx_payload r) (debug_toggle r).
Definition rx_with_bit_index (r : unart_rx) (v : Z) : unart_rx :=
  mk_rx (rx_timer r) (skew_percent r) (rx_period r) (skew r) (rx_fifo r)
        (push_work r) v (rx_payload r) (debug_toggle r).
Definition rx_with_payload (r : unart_rx) (v : Z) : unart_rx :=
  mk_rx (rx_timer r) (skew_percent r) (rx_period r) (skew r) (rx_fifo r)
        (push_work r) (rx_bit_index r) v (debug_toggle r).
Definition rx_with_debug_toggle (r : unart_rx) (v : Z) : unart_rx :=
  mk_rx (rx_timer r) (skew_percent r) (rx_period r) (skew r) (rx_fifo r)
        (push_work r) (rx_bit_index r) (rx_payload r) v.

Definition tx_with_gpio (t : unart_tx) (g : gpio_desc) : unart_tx :=
  mk_tx g (tx_timer t) (tx_period t) (tx_fifo t) (wakeup_work t)
        (tx_bit_index t) (tx_payload t).
Definition tx_with_timer (t : unart_tx) (h : hrtimer) : unart_tx :=
  mk_tx (tx_gpio t) h (tx_period t) (tx_fifo t) (wakeup_work t)
        (tx_bit_index t) (tx_payload t).
Definition tx_with_period (t : unart_tx) (v : Z) : unart_tx :=
  mk_tx (tx_gpio t) (tx_timer t) v (tx_fifo t) (wakeup_work t)
        (tx_bit_index t) (tx_payload t).
Definition tx_with_fifo (t : unart_tx) (f : kfifo) : unart_tx :=
  mk_tx (tx_gpio t) (tx_timer t) (tx_period t) f (wakeup_work t)
        (tx_bit_index t) (tx_payload t).
Definition tx_with_wakeup_work (t : unart_tx) (w : work_struct) : unart_tx :=
  mk_tx (tx_gpio t) (tx_timer t) (tx_period t) (tx_fifo t) w
        (tx_bit_index t) (tx_payload t).
Definition tx_with_bit_index (t : unart_tx) (v : Z) : unart_tx :=
  mk_tx (tx_gpio t) (tx_timer t) (tx_period t) (tx_fifo t) (wakeup_work t)
        v (tx_payload t).
Definition tx_with_payload (t : unart_tx) (v : Z) : unart_tx :=
  mk_tx (tx_gpio t) (tx_timer t) (tx_period t) (tx_fifo t) (wakeup_work t)
        (tx_bit_index t) v.

(** ** RX engine (unart_rx.c) *)

(** The toggle reaches the TX line through the enclosing [struct unart]. *)
Definition unart_rx_debug_toggle (u : unart) : unart :=
  let r := rx_with_debug_toggle (rx u) (Z.lxor (debug_toggle (rx u)) 1) in
  mk_unart r (tx_with_gpio (tx u)
                (gpiod_set_raw_value (tx_gpio (tx u)) (debug_toggle r))).

(** Falling-edge interrupt; [now] is what [ktime_get] returns.  The C
    function returns IRQ_HANDLED on both paths. *)
Definition unart_rx_irq_handler (p : unart_module_params) (now : Z) (u : unart)
  : unart :=
  if negb (rx_bit_index (rx u) =? -1) || hrtimer_active (rx_timer (rx u)) then u
  else
    let r := rx_with_payload (rx u) 0 in
    let r := rx_with_timer r (hrtimer_start (rx_timer r) (now + skew r)) in
    let u := set_rx u r in
    if rx_debug p then unart_rx_debug_toggle u else u.

(** [rx->payload = (bit << 7) | (rx->payload >> 1)], stored into a [u8]. *)
Definition rx_shift_in (bit payload : Z) : Z :=
  to_u8 (Z.lor (Z.shiftl bit 7) (Z.shiftr payload 1)).

(** Tail shared by the start-bit and data-bit branches:
    [hrtimer_forward_now(timer, rx->period); return HRTIMER_RESTART]. *)
Definition rx_rearm (now : Z) (u : unart) (r : unart_rx) : hrtimer_restart * unart :=
  (HRTIMER_RESTART,
   set_rx u (rx_with_timer r (hrtimer_forward (rx_timer r) now (rx_period r)))).

(** Timer callback; [bit] is what [gpiod_get_raw_value] reads from the RX
    line, [now] the time of the timer's clock base. *)
Definition unart_rx_timer_callback (p : unart_module_params) (now bit : Z)
  (u : unart) : hrtimer_restart * unart :=
  let u := if rx_debug p then unart_rx_debug_toggle u else u in
  let r := rx u in
  if rx_bit_index r =? -1 then
    if negb (bit =? 0) then (HRTIMER_NORESTART, u)
    else rx_rearm now u (rx_with_bit_index r (rx_bit_index r + 1))
  else if rx_bit_index r <? 8 then
    let r := rx_with_payload r (rx_shift_in bit (rx_payload r)) in
    rx_rearm now u (rx_with_bit_index r (rx_bit_index r + 1))
  else
    let r := if bit =? 1
             then rx_with_push_work
                    (rx_with_fifo r (snd (kfifo_put (rx_fifo r) (rx_payload r))))
                    (schedule_work (push_work r))
             else r in
    (HRTIMER_NORESTART, set_rx u (rx_with_bit_index r (-1))).

(** One expiry of the RX timer as the timer core runs it. *)
Definition unart_rx_timer_fire (p : unart_module_params) (now bit : Z) (u : unart)
  : unart :=
  let '(res, u') := unart_rx_timer_callback p now bit u in
  set_rx u' (rx_with_timer (rx u') (hrtimer_finish res (rx_timer (rx u')))).

(** Deferred delivery.  The first component is the run of bytes handed to
    [push_callback] ([buf] and [n] of the C code). *)
Definition unart_rx_push_work (u : unart) : list Z * unart :=
  let '(buf, f) := kfifo_out (rx_fifo (rx u)) UNART_RX_FIFO_SIZE in
  (buf, set_rx u (rx_with_fifo (rx u) f)).

(** What [unart_rx_setup] obtains from the platform: the error codes of
    the calls that may fail (0 for success) and the optional "rx-skew"
    device property. *)
Record rx_probe_env : Type := mk_rx_probe_env {
  rx_kfifo_alloc_err : Z;
  rx_gpiod_get_err : Z;
  rx_gpiod_cansleep : bool;
  rx_skew_property : option Z;
  rx_request_irq_err : Z;
  rx_add_action_err : Z
}.

Definition EINVAL : Z := 22.

(** Error code returned, and the structure as the function leaves it. *)
Definition unart_rx_setup (p : unart_module_params) (e : rx_probe_env)
  (r : unart_rx) : Z * unart_rx :=
  let r := rx_with_push_work r (mk_work false) in
  let r := rx_with_bit_index r (-1) in
  let r := rx_with_debug_toggle r 0 in
  if negb (rx_kfifo_alloc_err e =? 0) then (rx_kfifo_alloc_err e, r)
  else
    let r := rx_with_fifo r (kfifo_alloc UNART_RX_FIFO_SIZE) in
    if negb (rx_gpiod_get_err e =? 0) then (rx_gpiod_get_err e, r)
    else if rx_gpiod_cansleep e then (- EINVAL, r)
    else
      let r := rx_with_skew_percent r
                 (to_uint (match rx_skew_property e with
                           | Some v => v
                           | None => rx_skew p
                           end)) in
      let r := rx_with_skew_percent r (clamp (skew_percent r) 0 100) in
      if negb (rx_request_irq_err e =? 0) then (rx_request_irq_err e, r)
      else
        let r := rx_with_timer r (mk_hrtimer false (hrtimer_expires (rx_timer r))) in
        (rx_add_action_err e, r).

(** C's [/] on integers: truncating, undefined for a zero divisor. *)
Definition c_div (a b : Z) : option Z :=
  if b =? 0 then None else Some (Z.quot a b).

(** [None] is the division by zero. *)
Definition unart_rx_set_baud_rate (r : unart_rx) (baudrate : Z) : option unart_rx :=
  match c_div NSEC_PER_SEC baudrate with
  | None => None
  | Some period =>
      let r := rx_with_period r period in
      Some (rx_with_skew r (Z.quot (rx_period r * skew_percent r) 100))
  end.

(** ** TX engine (unart_tx.c) *)

Definition tx_rearm (now : Z) (t : unart_tx) : hrtimer_restart * unart_tx :=
  (HRTIMER_RESTART,
   tx_with_timer t (hrtimer_forward (tx_timer t) now (tx_period t))).

Definition unart_tx_timer_callback (now : Z) (t : unart_tx)
  : hrtimer_restart * unart_tx :=
  if tx_bit_index t =? -1 then
    let t := tx_with_gpio t (gpiod_set_raw_value (tx_gpio t) 0) in
    tx_rearm now (tx_with_bit_index t 0)
  else if tx_bit_index t <? 8 then
    let t := tx_with_gpio t (gpiod_set_raw_value (tx_gpio t) (Z.land (tx_payload t) 1)) in
    let t := tx_with_payload t (to_u8 (Z.shiftr (tx_payload t) 1)) in
    tx_rearm now (tx_with_bit_index t (tx_bit_index t + 1))
  else
    let t := tx_with_gpio t (gpiod_set_raw_value (tx_gpio t) 1) in
    let t := tx_with_bit_index t (-1) in
    match kfifo_get (tx_fifo t) with
    | (None, _) =>
        (HRTIMER_NORESTART, tx_with_wakeup_work t (schedule_work (wakeup_work t)))
    | (Some v, f) => tx_rearm now (tx_with_payload (tx_with_fifo t f) v)
    end.

Definition unart_tx_timer_fire (now : Z) (t : unart_tx) : unart_tx :=
  let '(res, t') := unart_tx_timer_callback now t in
  tx_with_timer t' (hrtimer_finish res (tx_timer t')).

Definition unart_tx_set_baud_rate (t : unart_tx) (baudrate : Z) : option unart_tx :=
  match c_div NSEC_PER_SEC baudrate with
  | None => None
  | Some period => Some (tx_with_period t period)
  end.

(** [buf] holds the [count] bytes of the caller; [now] is [ktime_get]. *)
Definition unart_tx_write (p : unart_module_params) (now : Z) (t : unart_tx)
  (buf : list Z) : Z * unart_tx :=
  if rx_debug p then (Z.of_nat (length buf), t)
  else
    let '(ret, f) := kfifo_in (tx_fifo t) buf in
    let t := tx_with_fifo t f in
    let t :=
      if negb (hrtimer_active (tx_timer t)) then
        match kfifo_get (tx_fifo t) with
        | (Some v, f') =>
            let t := tx_with_payload (tx_with_fifo t f') v in
            let t := tx_with_bit_index t (-1) in
            tx_with_timer t (hrtimer_start (tx_timer t) (now + tx_period t))
        | (None, _) => t
        end
      else t in
    (Z.of_nat ret, t).

Definition unart_tx_write_room (t : unart_tx) : nat := kfifo_avail (tx_fifo t).

(** ** Driving the engines *)

(** The RX timer fires once per sample for as long as it stays queued.
    A sample is the time at which the timer fires and the level read. *)
Fixpoint rx_drive (p : unart_module_params) (samples : list (Z * Z)) (u : unart)
  : unart :=
  match samples with
  | [] => u
  | (now, bit) :: rest =>
      let u' := unart_rx_timer_fire p now bit u in
      if hrtimer_active (rx_timer (rx u')) then rx_drive p rest u' else u'
  end.

(** The eight data bits of a byte, least significant first. *)
Definition data_bits (b : Z) : list Z :=
  map (fun i => Z.b2z (Z.testbit b (Z.of_nat i))) (seq 0 8).

(** Line levels of one frame: start bit, data bits, stop bit. *)
Definition frame_bits (start : Z) (data : list Z) (stop : Z) : list Z :=
  start :: data ++ [stop].

Definition rx_idle (r : unart_rx) : Prop := rx_bit_index r = -1.

(** The TX timer fires once per entry of [latencies], each time that
    long after its expiry, for as long as it stays queued.  Returns the
    expiries at which it fired. *)
Fixpoint tx_drive (latencies : list Z) (t : unart_tx) : list Z * unart_tx :=
  match latencies with
  | [] => ([], t)
  | l :: rest =>
      if hrtimer_active (tx_timer t) then
        let due := hrtimer_expires (tx_timer t) in
        let '(dues, t') := tx_drive rest (unart_tx_timer_fire (due + l) t) in
        (due :: dues, t')
      else ([], t)
  end.

(** [n] expiries one period apart. *)
Definition expiries (first period : Z) (n : nat) : list Z :=
  map (fun k => first + Z.of_nat k * period) (seq 0 n).

(** The fields of the receiver that the protocol branches write. *)
Record rx_view : Type := mk_rx_view {
  v_bit_index : Z;
  v_payload : Z;
  v_fifo : kfifo;
  v_push_work : work_struct;
  v_active : bool
}.

Definition rx_view_of (u : unart) : rx_view :=
  mk_rx_view (rx_bit_index (rx u)) (rx_payload (rx u)) (rx_fifo (rx u))
             (push_work (rx u)) (hrtimer_active (rx_timer (rx u))).

(** ** The receiver as a transition system *)

Inductive rx_event : Type :=
| EvEdge (now : Z)
| EvTimer (now bit : Z)
| EvPushWork
| EvSetBaudRate (baudrate : Z).

(** The timer core runs the callback of a queued timer whose expiry has
    passed; the workqueue clears the pending bit and runs the work
    function; a zero baud rate traps in the division. *)
Definition rx_step (p : unart_module_params) (e : rx_event) (u : unart)
  : option unart :=
  match e with
  | EvEdge now => Some (unart_rx_irq_handler p now u)
  | EvTimer now bit =>
      if hrtimer_active (rx_timer (rx u))
         && (hrtimer_expires (rx_timer (rx u)) <=? now)
      then Some (unart_rx_timer_fire p now bit u) else None
  | EvPushWork =>
      if work_pending (push_work (rx u))
      then Some (snd (unart_rx_push_work
                        (set_rx u (rx_with_push_work (rx u) (mk_work false)))))
      else None
  | EvSetBaudRate b =>
      match unart_rx_set_baud_rate (rx u) b with
      | Some r => Some (set_rx u r)
      | None => None
      end
  end.

(** Which branch of the handler an event takes in state [u]. *)
Inductive rx_obs : Type :=
| ObsEdgeIgnored | ObsEdgeAccepted
| ObsStartValid | ObsStartInvalid
| ObsData
| ObsStopValid | ObsStopInvalid
| ObsOther.

Definition rx_observe (e : rx_event) (u : unart) : rx_obs :=
  match e with
  | EvEdge _ =>
      if negb (rx_bit_index (rx u) =? -1) || hrtimer_active (rx_timer (rx u))
      then ObsEdgeIgnored else ObsEdgeAccepted
  | EvTimer _ bit =>
      if rx_bit_index (rx u) =? -1 then
        if negb (bit =? 0) then ObsStartInvalid else ObsStartValid
      else if rx_bit_index (rx u) <? 8 then ObsData
      else if bit =? 1 then ObsStopValid else ObsStopInvalid
  | _ => ObsOther
  end.

(** The receiver of a device structure as [devm_kzalloc] returns it. *)
Definition rx_zeroed : unart_rx :=
  mk_rx (mk_hrtimer false 0) 0 0 0 (mk_kfifo 0 []) (mk_work false) 0 0 0.

(** Initial states: [unart_rx_setup] succeeded on the zeroed structure. *)
Definition rx_initial (u : unart) : Prop :=
  exists p e, unart_rx_setup p e rx_zeroed = (0, rx u).

(** States the receiver reaches, with the branches taken on the way
    (latest first).  The diagnostic flag is writable at run time, so
    every step reads its own value of the module parameters. *)
Inductive rx_reachable : unart -> list rx_obs -> Prop :=
| rx_reach_init u : rx_initial u -> rx_reachable u []
| rx_reach_step u tr p e u' :
    rx_reachable u tr -> rx_step p e u = Some u' ->
    rx_reachable u' (rx_observe e u :: tr).

(** "A start edge has been detected and the terminating stop-bit sample
    (valid or not) has not yet occurred": the latest event among accepted
    edges and stop-bit samples is an accepted edge. *)
Fixpoint frame_open_spec (tr : list rx_obs) : bool :=
  match tr with
  | [] => false
  | ObsEdgeAccepted :: _ => true
  | ObsStopValid :: _ | ObsStopInvalid :: _ => false
  | _ :: tr' => frame_open_spec tr'
  end.

(** The same, with a rejected start-bit sample also ending the frame. *)
Fixpoint frame_open (tr : list rx_obs) : bool :=
  match tr with
  | [] => false
  | ObsEdgeAccepted :: _ => true
  | ObsStartInvalid :: _ | ObsStopValid :: _ | ObsStopInvalid :: _ => false
  | _ :: tr' => frame_open tr'
  end.

(** What holds of the receiver in every reachable state. *)
Definition rx_inv (u : unart) (tr : list rx_obs) : Prop :=
  hrtimer_active (rx_timer (rx u)) = frame_open tr
  /\ (hrtimer_active (rx_timer (rx u)) = false -> rx_bit_index (rx u) = -1)
  /\ -1 <= rx_bit_index (rx u) <= 8
  /\ is_u8 (rx_payload (rx u))
  /\ kfifo_wf (rx_fifo (rx u))
  /\ kfifo_size (rx_fifo (rx u)) = UNART_RX_FIFO_SIZE
  /\ 0 <= skew_percent (rx u) <= 100.

(** ** Concrete states used below *)

Definition params_default : unart_module_params := mk_params UNART_DEFAULT_RX_SKEW false.
Definition params_debug : unart_module_params := mk_params UNART_DEFAULT_RX_SKEW true.

Definition probe_ok : rx_probe_env := mk_rx_probe_env 0 0 false None 0 0.

Definition tx_fresh : unart_tx :=
  mk_tx [] (mk_hrtimer false 0) 104166 (kfifo_alloc UNART_TX_FIFO_SIZE)
        (mk_work false) 0 0.

(** A device right after a successful probe. *)
Definition unart_probed : unart :=
  mk_unart (snd (unart_rx_setup params_default probe_ok rx_zeroed))
           (mk_tx [] (mk_hrtimer false 0) 0 (kfifo_alloc UNART_TX_FIFO_SIZE)
                  (mk_work false) 0 0).

(** The same device once the line is configured for 9600 baud. *)
Definition unart_fresh : unart :=
  mk_unart (mk_rx (mk_hrtimer false 0) 30 104166 31249
                  (kfifo_alloc UNART_RX_FIFO_SIZE) (mk_work false) (-1) 0 0)
           tx_fresh.

(** A run of the receiver: the line is set to 9600 baud, a falling edge
    arrives at time 0, and the line is high again when it is sampled. *)
Definition run_configured : unart :=
  match rx_step params_default (EvSetBaudRate 9600) unart_probed with
  | Some u => u
  | None => unart_probed
  end.

Definition run_edge : unart := unart_rx_irq_handler params_default 0 run_configured.

Definition run_glitch : unart := unart_rx_timer_fire params_default 31249 1 run_edge.

(** The same device with 32 received bytes not yet delivered. *)
Definition unart_rx_backlog : unart :=
  set_rx unart_fresh
    (rx_with_fifo (rx unart_fresh)
       (mk_kfifo UNART_RX_FIFO_SIZE (repeat 85 UNART_RX_FIFO_SIZE))).

(** Service latencies of twelve timer expiries, in nanoseconds. *)
Definition latencies_sample : list Z := [0; 10; 20; 30; 40; 50; 60; 70; 80; 90; 0; 0].

Definition frame_samples (t0 period : Z) (bits : list Z) : list (Z * Z) :=
  combine (map (fun k => t0 + Z.of_nat k * period) (seq 0 (length bits))) bits.

(** ** The transmitter as a transition system *)

(** What [unart_tx_setup] obtains from the platform. *)
Record tx_probe_env : Type := mk_tx_probe_env {
  tx_kfifo_alloc_err : Z;
  tx_gpiod_get_err : Z;
  tx_gpiod_cansleep : bool;
  tx_add_action_err : Z
}.

(** Error code returned, and the structure as the function leaves it.
    The line is requested with GPIOD_OUT_HIGH: no value written yet, level
    high. *)
Definition unart_tx_setup (e : tx_probe_env) (t : unart_tx) : Z * unart_tx :=
  let t := tx_with_wakeup_work t (mk_work false) in
  if negb (tx_kfifo_alloc_err e =? 0) then (tx_kfifo_alloc_err e, t)
  else
    let t := tx_with_fifo t (kfifo_alloc UNART_TX_FIFO_SIZE) in
    if negb (tx_gpiod_get_err e =? 0) then (tx_gpiod_get_err e, t)
    else
      let t := tx_with_gpio t [] in
      if tx_gpiod_cansleep e then (- EINVAL, t)
      else
        let t := tx_with_timer t (mk_hrtimer false (hrtimer_expires (tx_timer t))) in
        (tx_add_action_err e, t).

(** The transmitter of a device structure as [devm_kzalloc] returns it. *)
Definition tx_zeroed : unart_tx :=
  mk_tx [] (mk_hrtimer false 0) 0 (mk_kfifo 0 []) (mk_work false) 0 0.


Definition is_u8b (x : Z) : bool := (0 <=? x) && (x <? u8_modulus).

(** The line levels of the frame of one byte. *)
Definition tx_frame (b : Z) : list Z := frame_bits 0 (data_bits b) 1.

Inductive tx_event : Type :=
| TxWrite (now : Z) (buf : list Z)
| TxTimer (now : Z)
| TxSetBaudRate (baudrate : Z)
| TxDebugToggle (value : Z).

(** A write hands in bytes ([const u8 *]); the timer core runs the
    callback of a queued timer whose expiry has passed; the receiver's
    diagnostic toggle writes the TX line. *)
Definition tx_step (p : unart_module_params) (e : tx_event) (t : unart_tx)
  : option unart_tx :=
  match e with
  | TxWrite now buf =>
      if forallb is_u8b buf then Some (snd (unart_tx_write p now t buf)) else None
  | TxTimer now =>
      if hrtimer_active (tx_timer t) && (hrtimer_expires (tx_timer t) <=? now)
      then Some (unart_tx_timer_fire now t) else None
  | TxSetBaudRate b => unart_tx_set_baud_rate t b
  | TxDebugToggle v =>
      Some (tx_with_gpio t (gpiod_set_raw_value (tx_gpio t) v))
  end.



(** The part of the line log written since it read [before]. *)
Definition gpio_since (before after : gpio_desc) : list Z :=
  skipn (length before) after.

Definition tx_probe_ok : tx_probe_env := mk_tx_probe_env 0 0 false 0.

(** A transmitter after a successful setup, and after 9600 baud is set. *)
Definition tx_probed : unart_tx := snd (unart_tx_setup tx_probe_ok tx_zeroed).

Definition tx_configured : unart_tx :=
  match tx_step params_default (TxSetBaudRate 9600) tx_probed with
  | Some t => t
  | None => tx_probed
  end.

(** Twenty on-time expiries. *)
Definition latencies_twenty : list Z := repeat 5 20.

(** ** Receiving over time *)

(** The RX timer fires once per entry of [samples], a pair of the
    service latency and the level read, for as long as it stays queued.
    Returns the expiries at which it fired. *)
Fixpoint rx_drive_timed (p : unart_module_params) (samples : list (Z * Z))
  (u : unart) : list Z * unart :=
  match samples with
  | [] => ([], u)
  | (late, bit) :: rest =>
      if hrtimer_active (rx_timer (rx u)) then
        let due := hrtimer_expires (rx_timer (rx u)) in
        let '(dues, u') :=
          rx_drive_timed p rest (unart_rx_timer_fire p (due + late) bit u) in
        (due :: dues, u')
      else ([], u)
  end.

(** One frame on the line: the falling edge at [fst fr], then the
    samples [snd fr]. *)
Definition rx_receive (p : unart_module_params) (fr : Z * list (Z * Z))
  (u : unart) : unart :=
  rx_drive p (snd fr) (unart_rx_irq_handler p (fst fr) u).

Definition rx_receive_all (p : unart_module_params)
  (frames : list (Z * list (Z * Z))) (u : unart) : unart :=
  fold_left (fun u fr => rx_receive p fr u) frames u.

(** [fr] carries the frame of the byte [b]. *)
Definition frame_carries (fr : Z * list (Z * Z)) (b : Z) : Prop :=
  map snd (snd fr) = tx_frame b.

(** The frame of [b] after an edge at [t0], sampled at 9600 baud. *)
Definition frame_at (t0 b : Z) : Z * list (Z * Z) :=
  (t0, frame_samples (t0 + 31249) 104166 (tx_frame b)).

(** ** The TX line looped back into the RX line *)

(** Cuts a list into pieces of [n] elements. *)
Fixpoint chunks (fuel n : nat) (l : list Z) : list (list Z) :=
  match fuel with
  | O => []
  | S fuel' =>
      match l with
      | [] => []
      | _ :: _ => firstn n l :: chunks fuel' n (skipn n l)
      end
  end.

(** The frames on a line that carries whole frames back to back. *)
Definition line_frames (line : list Z) : list (list Z) :=
  chunks (length line) 10 line.

(** The receiver sees the levels of [line], one frame after each falling
    edge: [frames] gives the edge and sample times. *)
Definition frames_sample_line (frames : list (Z * list (Z * Z))) (line : list Z)
  : Prop :=
  map (fun fr => map snd (snd fr)) frames = line_frames line.

(** The frame of [b] as (latency, level) pairs, each expiry served 5 ns
    late. *)
Definition timed_frame (b : Z) : list (Z * Z) :=
  combine (repeat 5 10) (tx_frame b).

(** ** TTY glue (unart_tty.c) and probing (unart_module.c) *)

Definition UNART_MAX_TTY_DEVICES : nat := 32.
Definition EBUSY : Z := 16.
Definition ENOMEM : Z := 12.

(** [find_first_zero_bit(addr, size)]: the lowest clear bit below [size],
    or [size] when there is none.  The bitmap is an integer read bit by
    bit. *)
Fixpoint find_zero_from (bm i : Z) (n : nat) : Z :=
  match n with
  | O => i
  | S n' => if Z.testbit bm i then find_zero_from bm (i + 1) n' else i
  end.

Definition find_first_zero_bit (bm : Z) (size : nat) : Z :=
  find_zero_from bm 0 size.

(** Index returned (or -EBUSY) and the bitmap afterwards; the mutex makes
    the function one step. *)
Definition find_free_device_index (bm : Z) : Z * Z :=
  let index := find_first_zero_bit bm UNART_MAX_TTY_DEVICES in
  if index <? Z.of_nat UNART_MAX_TTY_DEVICES
  then (index, Z.setbit bm index)
  else (- EBUSY, bm).

Definition release_device_index (bm index : Z) : Z := Z.clearbit bm index.

(** The speeds of [init_termios] that [unart_tty_register_driver] sets. *)
Record tty_driver : Type := mk_tty_driver {
  c_ispeed : Z;
  c_ospeed : Z
}.

Definition unart_tty_driver : tty_driver := mk_tty_driver 9600 9600.

(** A device: the engines, its TTY index and whether its TTY device is
    registered. *)
Record unart_dev : Type := mk_dev {
  dev_unart : unart;
  tty_index : Z;
  tty_registered : bool
}.

Record tty_setup_env : Type := mk_tty_setup_env {
  tty_register_device_err : Z;
  tty_add_action_err : Z
}.

Definition unart_tty_device_cleanup (bm : Z) (d : unart_dev) : Z * unart_dev :=
  (release_device_index bm (tty_index d),
   mk_dev (dev_unart d) (tty_index d) false).

(** Error code, bitmap and device afterwards; [None] is a division by
    zero in a baud-rate computation.  [devm_add_action_or_reset] runs the
    cleanup at once when it fails. *)
Definition unart_tty_device_setup (drv : tty_driver) (e : tty_setup_env)
  (bm : Z) (d : unart_dev) : option (Z * Z * unart_dev) :=
  let '(index, bm) := find_free_device_index bm in
  if index <? 0 then Some (index, bm, d)
  else
    let d := mk_dev (dev_unart d) (to_uint index) (tty_registered d) in
    if negb (tty_register_device_err e =? 0)
    then Some (tty_register_device_err e,
               release_device_index bm (tty_index d), d)
    else
      let d := mk_dev (dev_unart d) (tty_index d) true in
      match unart_rx_set_baud_rate (rx (dev_unart d)) (c_ispeed drv) with
      | None => None
      | Some r =>
          match unart_tx_set_baud_rate (tx (dev_unart d)) (c_ospeed drv) with
          | None => None
          | Some t =>
              let d := mk_dev (mk_unart r t) (tty_index d) (tty_registered d) in
              if negb (tty_add_action_err e =? 0)
              then let '(bm, d) := unart_tty_device_cleanup bm d in
                   Some (tty_add_action_err e, bm, d)
              else Some (0, bm, d)
          end
      end.






(** ** Module loading (unart_module.c) *)

(** The module parameters of the manual device ([unart_params.gpiochip],
    [.rx_gpio], [.tx_gpio]); a NULL [gpiochip] is [None]. *)
Record manual_params : Type := mk_manual_params {
  param_gpiochip : option String.string;
  param_rx_gpio : Z;
  param_tx_gpio : Z
}.

(** What the module holds in the kernel: the TTY driver (allocated,
    registered), the platform driver, the manual platform device
    (allocated, added, and whether [manual_pdev] points to it) and the
    GPIO lookup table. *)
Record module_state : Type := mk_module {
  tty_driver_allocated : bool;
  tty_driver_registered : bool;
  platform_driver_registered : bool;
  manual_pdev_set : bool;
  manual_device_allocated : bool;
  manual_device_added : bool;
  gpio_lookup_installed : bool
}.

Definition module_unloaded : module_state :=
  mk_module false false false false false false false.

Record init_env : Type := mk_init_env {
  tty_alloc_driver_err : Z;
  tty_register_driver_err : Z;
  platform_driver_register_err : Z;
  platform_device_alloc_ok : bool;
  platform_device_add_err : Z
}.

Definition unart_tty_register_driver (e : init_env) (s : module_state)
  : Z * module_state :=
  if negb (tty_alloc_driver_err e =? 0) then (tty_alloc_driver_err e, s)
  else
    let s := mk_module true (tty_driver_registered s)
               (platform_driver_registered s) (manual_pdev_set s)
               (manual_device_allocated s) (manual_device_added s)
               (gpio_lookup_installed s) in
    if negb (tty_register_driver_err e =? 0)
    then (tty_register_driver_err e,
          mk_module false (tty_driver_registered s)
            (platform_driver_registered s) (manual_pdev_set s)
            (manual_device_allocated s) (manual_device_added s)
            (gpio_lookup_installed s))
    else (0, mk_module (tty_driver_allocated s) true
               (platform_driver_registered s) (manual_pdev_set s)
               (manual_device_allocated s) (manual_device_added s)
               (gpio_lookup_installed s)).

Definition unart_tty_unregister_driver (s : module_state) : module_state :=
  mk_module false false (platform_driver_registered s) (manual_pdev_set s)
    (manual_device_allocated s) (manual_device_added s)
    (gpio_lookup_installed s).

Definition manual_complete (m : manual_params) : bool :=
  match param_gpiochip m with
  | Some _ => negb (param_rx_gpio m =? -1) && negb (param_tx_gpio m =? -1)
  | None => false
  end.

Definition manual_absent (m : manual_params) : bool :=
  match param_gpiochip m with
  | Some _ => false
  | None => (param_rx_gpio m =? -1) && (param_tx_gpio m =? -1)
  end.

Definition unart_manual_device_init (m : manual_params) (e : init_env)
  (s : module_state) : Z * module_state :=
  if manual_absent m then (0, s)
  else if negb (manual_complete m) then (- EINVAL, s)
  else if negb (platform_device_alloc_ok e) then (- ENOMEM, s)
  else
    let s := mk_module (tty_driver_allocated s) (tty_driver_registered s)
               (platform_driver_registered s) true true
               (manual_device_added s) true in
    if negb (platform_device_add_err e =? 0)
    then (platform_device_add_err e,
          mk_module (tty_driver_allocated s) (tty_driver_registered s)
            (platform_driver_registered s) (manual_pdev_set s) false
            (manual_device_added s) false)
    else (0, mk_module (tty_driver_allocated s) (tty_driver_registered s)
               (platform_driver_registered s) (manual_pdev_set s)
               (manual_device_allocated s) true false).

Definition platform_driver_unregister (s : module_state) : module_state :=
  mk_module (tty_driver_allocated s) (tty_driver_registered s) false
    (manual_pdev_set s) (manual_device_allocated s) (manual_device_added s)
    (gpio_lookup_installed s).

Definition unart_init (m : manual_params) (e : init_env) (s : module_state)
  : Z * module_state :=
  let '(err, s) := unart_tty_register_driver e s in
  if negb (err =? 0) then (err, s)
  else
    if negb (platform_driver_register_err e =? 0)
    then (platform_driver_register_err e, unart_tty_unregister_driver s)
    else
      let s := mk_module (tty_driver_allocated s) (tty_driver_registered s) true
                 (manual_pdev_set s) (manual_device_allocated s)
                 (manual_device_added s) (gpio_lookup_installed s) in
      let '(err, s) := unart_manual_device_init m e s in
      if negb (err =? 0)
      then (err, unart_tty_unregister_driver (platform_driver_unregister s))
      else (0, s).

Definition unart_exit (s : module_state) : module_state :=
  let s := if manual_pdev_set s
           then mk_module (tty_driver_allocated s) (tty_driver_registered s)
                  (platform_driver_registered s) (manual_pdev_set s) false false
                  (gpio_lookup_installed s)
           else s in
  unart_tty_unregister_driver (platform_driver_unregister s).

(** Nothing of the module is left in the kernel. *)
Definition module_holds_nothing (s : module_state) : Prop :=
  tty_driver_allocated s = false /\ tty_driver_registered s = false
  /\ platform_driver_registered s = false
  /\ manual_device_allocated s = false /\ manual_device_added s = false
  /\ gpio_lookup_installed s = false.

(** * Properties *)

(** ** Arithmetic of the shift register *)

Example data_bits_0x41 : data_bits 65 = [1; 0; 0; 0; 0; 0; 1; 0].
Proof. reflexivity. Qed.

Lemma is_u8_to_u8 x : is_u8 (to_u8 x).
Proof. unfold is_u8, to_u8, u8_modulus. apply Z.mod_pos_bound. lia. Qed.

Lemma land_pow2_small k x : 0 <= k -> 0 <= x < 2 ^ k -> Z.land (2 ^ k) x = 0.
Proof.
  intros Hk Hx. apply Z.bits_inj'. intros n Hn.
  rewrite Z.land_spec, Z.bits_0.
  destruct (Z.eq_dec n k) as [-> | Hne].
  - destruct (Z.eq_dec x 0) as [-> | Hz].
    + rewrite Z.bits_0. apply andb_false_r.
    + rewrite (Z.bits_above_log2 x k); [apply andb_false_r | lia |].
      apply Z.log2_lt_pow2; lia.
  - rewrite Z.pow2_bits_false by lia. reflexivity.
Qed.

(** The new bit becomes bit 7, the old contents move down by one. *)
Lemma rx_shift_in_arith bit payload :
  0 <= bit <= 1 -> is_u8 payload ->
  rx_shift_in bit payload = 128 * bit + payload / 2.
Proof.
  unfold is_u8, rx_shift_in, to_u8, u8_modulus. intros Hb Hp.
  rewrite Z.shiftr_div_pow2, Z.shiftl_mul_pow2 by lia.
  change (2 ^ 1) with 2.
  assert (Hq : 0 <= payload / 2 < 2 ^ 7).
  { change (2 ^ 7) with 128. split; [apply Z.div_pos | apply Z.div_lt_upper_bound]; lia. }
  assert (Hbit : bit = 0 \/ bit = 1) by lia.
  destruct Hbit as [-> | ->].
  - rewrite Z.lor_0_l, Z.mod_small; change (2 ^ 7) with 128 in Hq; lia.
  - rewrite Z.mul_1_l, <- Z.lxor_lor, <- Z.add_nocarry_lxor
      by (apply land_pow2_small; lia).
    change (2 ^ 7) with 128 in *. rewrite Z.mod_small; lia.
Qed.

Lemma b2z_range (c : bool) : 0 <= Z.b2z c <= 1.
Proof. destruct c; simpl; lia. Qed.

Lemma rx_shift_in_step bit payload :
  0 <= bit <= 1 -> is_u8 payload ->
  is_u8 (rx_shift_in bit payload)
  /\ rx_shift_in bit payload = 128 * bit + payload / 2.
Proof.
  intros Hb Hp. split; [apply is_u8_to_u8 | apply rx_shift_in_arith; assumption].
Qed.

Ltac shift_step :=
  match goal with
  | |- context [rx_shift_in (Z.b2z ?c) ?x] =>
      is_var x;
      let H := fresh "Hu" in
      let E := fresh "Es" in
      let y := fresh "y" in
      let Q := fresh "Q" in
      destruct (rx_shift_in_step (Z.b2z c) x (b2z_range c) ltac:(assumption))
        as [H E];
      remember (rx_shift_in (Z.b2z c) x) as y eqn:Q; clear Q
  end.

(** Eight shifts of a byte's bits, least significant first, leave the
    byte in the register whatever it held before. *)
Lemma rx_shift_in_data_bits b payload :
  is_u8 b -> is_u8 payload ->
  fold_left (fun acc bit => rx_shift_in bit acc) (data_bits b) payload = b.
Proof.
  intros Hb Hp. unfold data_bits. cbn [seq map fold_left].
  do 8 shift_step.
  rewrite !Z.testbit_spec' in * by apply Nat2Z.is_nonneg.
  simpl Z.of_nat in *.
  unfold is_u8, u8_modulus in *.
  change (2 ^ 0) with 1 in *. change (2 ^ 1) with 2 in *.
  change (2 ^ 2) with 4 in *. change (2 ^ 3) with 8 in *.
  change (2 ^ 4) with 16 in *. change (2 ^ 5) with 32 in *.
  change (2 ^ 6) with 64 in *. change (2 ^ 7) with 128 in *.
  rewrite Z.div_1_r in *.
  Z.to_euclidean_division_equations; lia.
Qed.

(** ** One expiry of the RX timer, branch by branch *)

Ltac rx_unfold :=
  unfold unart_rx_timer_fire, unart_rx_timer_callback, rx_rearm, rx_view_of,
    unart_rx_debug_toggle, set_rx.

Lemma rx_fire_start_valid p now u :
  rx_bit_index (rx u) = -1 ->
  rx_view_of (unart_rx_timer_fire p now 0 u)
  = mk_rx_view 0 (rx_payload (rx u)) (rx_fifo (rx u)) (push_work (rx u)) true.
Proof.
  intros H. rx_unfold. destruct (rx_debug p); cbn; rewrite H; reflexivity.
Qed.

Lemma rx_fire_start_invalid p now bit u :
  rx_bit_index (rx u) = -1 -> bit <> 0 ->
  rx_view_of (unart_rx_timer_fire p now bit u)
  = mk_rx_view (-1) (rx_payload (rx u)) (rx_fifo (rx u)) (push_work (rx u)) false.
Proof.
  intros H Hb. apply Z.eqb_neq in Hb. rx_unfold.
  destruct (rx_debug p); cbn; rewrite H; cbn; rewrite Hb; cbn; rewrite ?H;
    reflexivity.
Qed.

Lemma rx_fire_data p now bit u :
  0 <= rx_bit_index (rx u) < 8 ->
  rx_view_of (unart_rx_timer_fire p now bit u)
  = mk_rx_view (rx_bit_index (rx u) + 1) (rx_shift_in bit (rx_payload (rx u)))
               (rx_fifo (rx u)) (push_work (rx u)) true.
Proof.
  intros H.
  assert (H1 : (rx_bit_index (rx u) =? -1) = false) by (apply Z.eqb_neq; lia).
  assert (H2 : (rx_bit_index (rx u) <? 8) = true) by (apply Z.ltb_lt; lia).
  rx_unfold. destruct (rx_debug p); cbn; rewrite H1, H2; reflexivity.
Qed.

Lemma rx_fire_stop p now bit u :
  8 <= rx_bit_index (rx u) ->
  rx_view_of (unart_rx_timer_fire p now bit u)
  = if bit =? 1
    then mk_rx_view (-1) (rx_payload (rx u))
           (snd (kfifo_put (rx_fifo (rx u)) (rx_payload (rx u))))
           (mk_work true) false
    else mk_rx_view (-1) (rx_payload (rx u)) (rx_fifo (rx u))
           (push_work (rx u)) false.
Proof.
  intros H.
  assert (H1 : (rx_bit_index (rx u) =? -1) = false) by (apply Z.eqb_neq; lia).
  assert (H2 : (rx_bit_index (rx u) <? 8) = false) by (apply Z.ltb_ge; lia).
  rx_unfold. destruct (rx_debug p); cbn; rewrite H1, H2; destruct (bit =? 1);
    reflexivity.
Qed.

Lemma rx_view_inv u i pl f w a :
  rx_view_of u = mk_rx_view i pl f w a ->
  rx_bit_index (rx u) = i /\ rx_payload (rx u) = pl /\ rx_fifo (rx u) = f
  /\ push_work (rx u) = w /\ hrtimer_active (rx_timer (rx u)) = a.
Proof. unfold rx_view_of. intros H. injection H. auto. Qed.

(** ** Driving the receiver through the data bits *)

Lemma rx_drive_data p : forall samples rest u,
  0 <= rx_bit_index (rx u) ->
  rx_bit_index (rx u) + Z.of_nat (length samples) <= 8 ->
  hrtimer_active (rx_timer (rx u)) = true ->
  exists u',
    rx_drive p (samples ++ rest) u = rx_drive p rest u'
    /\ rx_view_of u'
       = mk_rx_view (rx_bit_index (rx u) + Z.of_nat (length samples))
           (fold_left (fun acc bit => rx_shift_in bit acc) (map snd samples)
                      (rx_payload (rx u)))
           (rx_fifo (rx u)) (push_work (rx u)) true.
Proof.
  induction samples as [| [now bit] samples IH]; intros rest u Hlo Hhi Hact.
  - exists u. split; [reflexivity |].
    unfold rx_view_of. cbn [length map fold_left]. rewrite Hact.
    change (Z.of_nat 0) with 0. rewrite Z.add_0_r. reflexivity.
  - cbn [length] in Hhi. rewrite Nat2Z.inj_succ in Hhi.
    pose proof (rx_fire_data p now bit u ltac:(lia)) as Hv.
    apply rx_view_inv in Hv. destruct Hv as (Hi & Hpl & Hf & Hw & Ha).
    destruct (IH rest (unart_rx_timer_fire p now bit u)) as (u' & Hrun & Hview);
      [lia | lia | exact Ha |].
    exists u'. split.
    + cbn [app rx_drive]. rewrite Ha. exact Hrun.
    + rewrite Hview, Hi, Hpl, Hf, Hw. cbn [length map fold_left snd].
      rewrite Nat2Z.inj_succ. f_equal. lia.
Qed.

Lemma frame_bits_split (samples : list (Z * Z)) start data stop :
  map snd samples = frame_bits start data stop ->
  exists t0 mid t9,
    samples = (t0, start) :: mid ++ [(t9, stop)] /\ map snd mid = data.
Proof.
  unfold frame_bits. destruct samples as [| [t0 b0] samples]; [discriminate |].
  cbn [map snd]. intros H. injection H as -> H.
  apply map_eq_app in H. destruct H as (mid & lst & -> & Hmid & Hlst).
  destruct lst as [| [t9 b9] [| ? ?]]; try discriminate.
  injection Hlst as ->. exists t0, mid, t9. auto.
Qed.

(** A frame whose start bit is accepted runs to its stop-bit sample. *)
Lemma rx_drive_frame p u samples data stop :
  rx_idle (rx u) ->
  map snd samples = frame_bits 0 data stop ->
  length data = 8%nat ->
  rx_view_of (rx_drive p samples u)
  = let payload := fold_left (fun acc bit => rx_shift_in bit acc) data
                             (rx_payload (rx u)) in
    if stop =? 1
    then mk_rx_view (-1) payload (snd (kfifo_put (rx_fifo (rx u)) payload))
                    (mk_work true) false
    else mk_rx_view (-1) payload (rx_fifo (rx u)) (push_work (rx u)) false.
Proof.
  intros Hidle Hs Hlen.
  destruct (frame_bits_split _ _ _ _ Hs) as (t0 & mid & t9 & -> & Hmid).
  pose proof (rx_fire_start_valid p t0 u Hidle) as Hv.
  apply rx_view_inv in Hv. destruct Hv as (Hi & Hpl & Hf & Hw & Ha).
  assert (Hmlen : length mid = 8%nat) by (rewrite <- Hlen, <- Hmid, length_map; reflexivity).
  destruct (rx_drive_data p mid [(t9, stop)] (unart_rx_timer_fire p t0 0 u))
    as (u8 & Hrun & Hview); [lia | rewrite Hi, Hmlen; simpl; lia | exact Ha |].
  cbn [rx_drive]. rewrite Ha. cbn [rx_drive] in Hrun. rewrite Hrun.
  apply rx_view_inv in Hview. destruct Hview as (Hi8 & Hpl8 & Hf8 & Hw8 & Ha8).
  rewrite Hi, Hmlen in Hi8. rewrite Hpl, Hmid in Hpl8. rewrite Hf in Hf8.
  rewrite Hw in Hw8.
  pose proof (rx_fire_stop p t9 stop u8 ltac:(rewrite Hi8; simpl; lia)) as Hstop.
  rewrite Hpl8, Hf8, Hw8 in Hstop.
  assert (Hoff : hrtimer_active (rx_timer (rx (unart_rx_timer_fire p t9 stop u8))) = false).
  { destruct (stop =? 1); apply rx_view_inv in Hstop; tauto. }
  rewrite Hoff. cbv zeta. exact Hstop.
Qed.

(** ** Reception of a frame *)

(** C1 (as amended).  From an idle receiver whose register holds any
    byte, a well-formed frame (start-bit sample 0, the bits of [b] least
    significant first, stop-bit sample 1) leaves exactly [b] in
    [payload], requests the deferred delivery, resets [bit_index] to -1
    and stops the timer.  [b] is appended to the RX queue when the queue
    has room; a full queue is left as it was and [b] is dropped.  Each
    data sample becomes bit 7 of [payload] and moves the previous
    contents down by one. *)
Theorem rx_frame_reconstructs_byte p u samples b :
  rx_idle (rx u) -> is_u8 (rx_payload (rx u)) -> is_u8 b ->
  map snd samples = frame_bits 0 (data_bits b) 1 ->
  rx_view_of (rx_drive p samples u)
  = mk_rx_view (-1) b
      (if kfifo_is_full (rx_fifo (rx u)) then rx_fifo (rx u)
       else mk_kfifo (kfifo_size (rx_fifo (rx u)))
                     (kfifo_data (rx_fifo (rx u)) ++ [b]))
      (mk_work true) false
  /\ (forall now bit v,
        0 <= rx_bit_index (rx v) < 8 -> 0 <= bit <= 1 ->
        is_u8 (rx_payload (rx v)) ->
        rx_payload (rx (unart_rx_timer_fire p now bit v))
        = 128 * bit + rx_payload (rx v) / 2).
Proof.
  intros Hidle Hpl Hb Hs. split.
  - rewrite (rx_drive_frame p u samples (data_bits b) 1 Hidle Hs eq_refl).
    cbv zeta. rewrite (rx_shift_in_data_bits b _ Hb Hpl).
    change (1 =? 1) with true. cbv iota. unfold kfifo_put.
    destruct (kfifo_is_full (rx_fifo (rx u))); reflexivity.
  - intros now bit v Hi Hbit Hv.
    pose proof (rx_fire_data p now bit v Hi) as Hview.
    apply rx_view_inv in Hview. destruct Hview as (_ & -> & _).
    apply rx_shift_in_arith; assumption.
Qed.

Lemma rx_frame_reconstructs_byte_witness :
  let u := unart_rx_irq_handler params_default 0 unart_fresh in
  let samples := frame_samples 31249 104166 (frame_bits 0 (data_bits 65) 1) in
  rx_idle (rx u) /\ is_u8 (rx_payload (rx u)) /\ is_u8 65
  /\ map snd samples = frame_bits 0 (data_bits 65) 1
  /\ rx_view_of (rx_drive params_default samples u)
     = mk_rx_view (-1) 65 (mk_kfifo UNART_RX_FIFO_SIZE [65]) (mk_work true) false.
Proof.
  cbv zeta.
  assert (H1 : rx_idle (rx (unart_rx_irq_handler params_default 0 unart_fresh)))
    by reflexivity.
  assert (H2 : is_u8 (rx_payload (rx (unart_rx_irq_handler params_default 0 unart_fresh))))
    by (vm_compute; split; [discriminate | reflexivity]).
  assert (H3 : is_u8 65) by (vm_compute; split; [discriminate | reflexivity]).
  assert (H4 : map snd (frame_samples 31249 104166 (frame_bits 0 (data_bits 65) 1))
               = frame_bits 0 (data_bits 65) 1) by reflexivity.
  split; [exact H1 |]. split; [exact H2 |]. split; [exact H3 |].
  split; [exact H4 |].
  exact (proj1 (rx_frame_reconstructs_byte params_default _ _ 65 H1 H2 H3 H4)).
Defined.

(** Counterexample to C1 as stated.  With 32 undelivered bytes in the
    RX queue, the frame of 0x41 that follows an accepted edge leaves the
    queue as it was: 0x41 is in [payload] but not in the queue. *)
Lemma rx_frame_dropped_when_queue_full :
  let u := unart_rx_irq_handler params_default 0 unart_rx_backlog in
  let samples := frame_samples 31249 104166 (frame_bits 0 (data_bits 65) 1) in
  let u' := rx_drive params_default samples u in
  rx_idle (rx u) /\ rx_payload (rx u) = 0
  /\ rx_payload (rx u') = 65
  /\ rx_fifo (rx u') = rx_fifo (rx u)
  /\ kfifo_data (rx_fifo (rx u')) <> kfifo_data (rx_fifo (rx u)) ++ [65]
  /\ ~ In 65 (kfifo_data (rx_fifo (rx u'))).
Proof.
  vm_compute. repeat split; try reflexivity; try discriminate.
  intros H. repeat (destruct H as [H | H]; [discriminate H |]). exact H.
Qed.

(** C3.  A frame whose start-bit sample is not 0, or whose stop-bit
    sample is not 1, leaves the RX queue and the delivery work item as
    they were, whatever the eight data samples are; [bit_index] is back
    at -1 and the timer is stopped.  The callback has no error result:
    it answers HRTIMER_NORESTART. *)
Theorem rx_invalid_frame_delivers_nothing p u samples start data stop :
  rx_idle (rx u) ->
  map snd samples = frame_bits start data stop ->
  length data = 8%nat ->
  start <> 0 \/ stop <> 1 ->
  rx_fifo (rx (rx_drive p samples u)) = rx_fifo (rx u)
  /\ push_work (rx (rx_drive p samples u)) = push_work (rx u)
  /\ rx_idle (rx (rx_drive p samples u))
  /\ hrtimer_active (rx_timer (rx (rx_drive p samples u))) = false.
Proof.
  intros Hidle Hs Hlen Hbad.
  destruct (Z.eq_dec start 0) as [-> | Hstart].
  - destruct Hbad as [Hbad | Hstop]; [contradiction |].
    pose proof (rx_drive_frame p u samples data stop Hidle Hs Hlen) as Hv.
    cbv zeta in Hv. apply Z.eqb_neq in Hstop. rewrite Hstop in Hv.
    apply rx_view_inv in Hv. unfold rx_idle. tauto.
  - destruct (frame_bits_split _ _ _ _ Hs) as (t0 & mid & t9 & -> & _).
    pose proof (rx_fire_start_invalid p t0 start u Hidle Hstart) as Hv.
    apply rx_view_inv in Hv. destruct Hv as (Hi & _ & Hf & Hw & Ha).
    cbn [rx_drive]. rewrite Ha. unfold rx_idle. auto.
Qed.

Lemma rx_invalid_frame_delivers_nothing_witness :
  let u := unart_rx_irq_handler params_default 0 unart_fresh in
  let samples := frame_samples 31249 104166 (frame_bits 0 (data_bits 65) 0) in
  rx_idle (rx u)
  /\ map snd samples = frame_bits 0 (data_bits 65) 0
  /\ length (data_bits 65) = 8%nat
  /\ (0 <> 0 \/ 0 <> 1)
  /\ rx_fifo (rx (rx_drive params_default samples u)) = rx_fifo (rx u)
  /\ push_work (rx (rx_drive params_default samples u)) = push_work (rx u)
  /\ rx_idle (rx (rx_drive params_default samples u))
  /\ hrtimer_active (rx_timer (rx (rx_drive params_default samples u))) = false.
Proof.
  cbv zeta.
  assert (H1 : rx_idle (rx (unart_rx_irq_handler params_default 0 unart_fresh)))
    by reflexivity.
  assert (H2 : map snd (frame_samples 31249 104166 (frame_bits 0 (data_bits 65) 0))
               = frame_bits 0 (data_bits 65) 0) by reflexivity.
  assert (H3 : length (data_bits 65) = 8%nat) by reflexivity.
  assert (H4 : 0 <> 0 \/ 0 <> 1) by (right; discriminate).
  split; [exact H1 |]. split; [exact H2 |]. split; [exact H3 |].
  split; [exact H4 |].
  exact (rx_invalid_frame_delivers_nothing params_default _ _ 0 _ 0 H1 H2 H3 H4).
Defined.

(** ** Edges during a frame *)

(** C6.  While a frame is in progress ([bit_index] is not -1, or the RX
    timer is active) the edge handler returns the state it was given:
    [payload], [bit_index], the RX queue, the timer and its expiry, and
    the diagnostic toggle are all untouched. *)
Theorem rx_irq_ignored_during_frame p now u :
  rx_bit_index (rx u) <> -1 \/ hrtimer_active (rx_timer (rx u)) = true ->
  unart_rx_irq_handler p now u = u.
Proof.
  intros H. unfold unart_rx_irq_handler.
  destruct H as [H | H].
  - apply Z.eqb_neq in H. rewrite H. reflexivity.
  - rewrite H, orb_true_r. reflexivity.
Qed.

Lemma rx_irq_ignored_during_frame_witness :
  let u := unart_rx_timer_fire params_default 31249 0
             (unart_rx_irq_handler params_default 0 unart_fresh) in
  (rx_bit_index (rx u) <> -1 \/ hrtimer_active (rx_timer (rx u)) = true)
  /\ unart_rx_irq_handler params_default 40000 u = u.
Proof.
  cbv zeta.
  assert (H : rx_bit_index (rx (unart_rx_timer_fire params_default 31249 0
                 (unart_rx_irq_handler params_default 0 unart_fresh))) <> -1
              \/ hrtimer_active (rx_timer (rx (unart_rx_timer_fire params_default 31249 0
                 (unart_rx_irq_handler params_default 0 unart_fresh)))) = true)
    by (right; reflexivity).
  split; [exact H |].
  exact (rx_irq_ignored_during_frame params_default 40000 _ H).
Defined.

(** ** Line timing *)

Lemma clamp_range val lo hi : lo <= hi -> lo <= clamp val lo hi <= hi.
Proof. unfold clamp. lia. Qed.

(** A successful [unart_rx_setup] went through every stage. *)
Lemma unart_rx_setup_ok p e r0 r :
  unart_rx_setup p e r0 = (0, r) ->
  rx_bit_index r = -1 /\ debug_toggle r = 0
  /\ rx_fifo r = kfifo_alloc UNART_RX_FIFO_SIZE
  /\ push_work r = mk_work false
  /\ hrtimer_active (rx_timer r) = false
  /\ 0 <= skew_percent r <= 100
  /\ rx_payload r = rx_payload r0.
Proof.
  unfold unart_rx_setup.
  destruct (rx_kfifo_alloc_err e =? 0) eqn:E1; cbn [negb];
    [| intros H; injection H as H _; rewrite H in E1; discriminate].
  destruct (rx_gpiod_get_err e =? 0) eqn:E2; cbn [negb];
    [| intros H; injection H as H _; rewrite H in E2; discriminate].
  destruct (rx_gpiod_cansleep e); [discriminate |].
  destruct (rx_request_irq_err e =? 0) eqn:E3; cbn [negb];
    [| intros H; injection H as H _; rewrite H in E3; discriminate].
  intros H. injection H as _ <-. cbn.
  repeat split; try reflexivity; apply clamp_range; lia.
Qed.


Lemma c_div_pos a b :
  0 <= a -> 1 <= b -> c_div a b = Some (a / b).
Proof.
  intros Ha Hb. unfold c_div.
  assert (E : (b =? 0) = false) by (apply Z.eqb_neq; lia).
  rewrite E, Z.quot_div_nonneg by lia. reflexivity.
Qed.

(** C5 (as amended).  For a baud rate of at least 1 and a skew
    percentage in [0,100], [unart_rx_set_baud_rate] sets [period] to
    10^9 / baudrate and [skew] to period * skew_percent / 100, both
    truncated, and 0 <= skew <= period.  [skew] is strictly below
    [period] exactly when skew_percent is below 100 and the period is not
    zero (baudrate at most 10^9). *)
Theorem rx_set_baud_rate_timing r baudrate :
  0 <= skew_percent r <= 100 -> 1 <= baudrate ->
  exists r',
    unart_rx_set_baud_rate r baudrate = Some r'
    /\ rx_period r' = NSEC_PER_SEC / baudrate
    /\ skew r' = rx_period r' * skew_percent r / 100
    /\ skew_percent r' = skew_percent r
    /\ 0 <= skew r' <= rx_period r'
    /\ (skew r' < rx_period r'
        <-> skew_percent r < 100 /\ baudrate <= NSEC_PER_SEC).
Proof.
  intros Hs Hb. unfold unart_rx_set_baud_rate.
  rewrite c_div_pos by (unfold NSEC_PER_SEC; lia).
  eexists. split; [reflexivity |]. cbn.
  assert (Hp : 0 <= NSEC_PER_SEC / baudrate)
    by (apply Z.div_pos; unfold NSEC_PER_SEC; lia).
  assert (Hz : NSEC_PER_SEC / baudrate = 0 <-> NSEC_PER_SEC < baudrate).
  { rewrite Z.div_small_iff by lia. unfold NSEC_PER_SEC. lia. }
  set (period := NSEC_PER_SEC / baudrate) in *.
  rewrite Z.quot_div_nonneg by nia.
  split; [reflexivity |]. split; [reflexivity |]. split; [reflexivity |].
  assert (Hq : 0 <= period * skew_percent r / 100) by (apply Z.div_pos; nia).
  assert (Hle : period * skew_percent r / 100 <= period).
  { apply Z.div_le_upper_bound; nia. }
  split; [lia |]. split.
  - intros Hlt. split.
    + destruct (Z.eq_dec (skew_percent r) 100) as [E | E]; [| lia].
      rewrite E, Z.div_mul in Hlt; lia.
    + destruct (Z_lt_ge_dec NSEC_PER_SEC baudrate) as [Hgt | ?]; [| lia].
      apply Hz in Hgt. rewrite Hgt, Z.mul_0_l, Z.div_0_l in Hlt; lia.
  - intros [Hsp Hbr]. apply Z.div_lt_upper_bound; [lia |].
    assert (period <> 0) by (intros E; apply Hz in E; lia). nia.
Qed.

Lemma rx_set_baud_rate_timing_witness :
  0 <= skew_percent (rx unart_probed) <= 100 /\ 1 <= 9600
  /\ exists r',
       unart_rx_set_baud_rate (rx unart_probed) 9600 = Some r'
       /\ rx_period r' = 104166 /\ skew r' = 31249
       /\ skew_percent r' = 30 /\ skew r' < rx_period r'.
Proof.
  assert (H1 : 0 <= skew_percent (rx unart_probed) <= 100)
    by (vm_compute; split; discriminate).
  assert (H2 : 1 <= 9600) by discriminate.
  split; [exact H1 |]. split; [exact H2 |].
  destruct (rx_set_baud_rate_timing (rx unart_probed) 9600 H1 H2)
    as (r' & E & Hp & Hs & Hsp & _ & Hlt).
  exists r'. split; [exact E |]. split; [exact Hp |].
  split; [rewrite Hs, Hp; reflexivity |]. split; [exact Hsp |].
  apply Hlt. split; [reflexivity | discriminate].
Defined.

(** Counterexample to C5 as stated.  With "rx-skew" set to 100 the
    clamp keeps 100, and at 9600 baud the skew equals the period. *)
Lemma rx_skew_equals_period_at_100 :
  let e := mk_rx_probe_env 0 0 false (Some 100) 0 0 in
  let r := snd (unart_rx_setup params_default e rx_zeroed) in
  fst (unart_rx_setup params_default e rx_zeroed) = 0
  /\ skew_percent r = 100
  /\ exists r',
       unart_rx_set_baud_rate r 9600 = Some r'
       /\ rx_period r' = 104166 /\ skew r' = 104166
       /\ ~ skew r' < rx_period r'.
Proof.
  cbv zeta. split; [reflexivity |]. split; [reflexivity |].
  eexists. split; [reflexivity |]. split; [reflexivity |].
  split; [reflexivity |]. vm_compute. discriminate.
Qed.

(** C9.  Neither [set_baud_rate] tests its divisor.  For a baud rate of
    at least 1 the division is defined (and yields 10^9 / baudrate), so
    both operations complete; for a baud rate of 0 both reach the
    division by zero. *)
Theorem set_baud_rate_division r t :
  (forall baudrate, 1 <= baudrate ->
     c_div NSEC_PER_SEC baudrate = Some (NSEC_PER_SEC / baudrate)
     /\ unart_rx_set_baud_rate r baudrate <> None
     /\ unart_tx_set_baud_rate t baudrate
        = Some (tx_with_period t (NSEC_PER_SEC / baudrate)))
  /\ c_div NSEC_PER_SEC 0 = None
  /\ unart_rx_set_baud_rate r 0 = None
  /\ unart_tx_set_baud_rate t 0 = None.
Proof.
  split; [| repeat split].
  intros b Hb.
  assert (E : c_div NSEC_PER_SEC b = Some (NSEC_PER_SEC / b))
    by (apply c_div_pos; unfold NSEC_PER_SEC; lia).
  unfold unart_rx_set_baud_rate, unart_tx_set_baud_rate. rewrite E.
  repeat split. discriminate.
Qed.

Lemma set_baud_rate_division_witness :
  1 <= 9600
  /\ unart_rx_set_baud_rate (rx unart_probed) 9600 <> None
  /\ unart_tx_set_baud_rate (tx unart_probed) 9600
     = Some (tx_with_period (tx unart_probed) 104166)
  /\ unart_rx_set_baud_rate (rx unart_probed) 0 = None
  /\ unart_tx_set_baud_rate (tx unart_probed) 0 = None.
Proof.
  assert (H : 1 <= 9600) by discriminate.
  destruct (set_baud_rate_division (rx unart_probed) (tx unart_probed))
    as (Hpos & _ & Hrx0 & Htx0).
  destruct (Hpos 9600 H) as (_ & Hrx & Htx).
  split; [exact H |]. split; [exact Hrx |]. split; [exact Htx |].
  split; [exact Hrx0 | exact Htx0].
Defined.

(** ** Deferred delivery *)

(** C10.  The RX queue holds at most [UNART_RX_FIFO_SIZE] = 32 bytes,
    which is also the length of the local buffer, so one run of
    [unart_rx_push_work] hands the whole contents of the queue to the
    push callback, oldest byte first, and leaves the queue empty;
    nothing else changes. *)
Theorem rx_push_work_drains_queue u :
  kfifo_wf (rx_fifo (rx u)) ->
  kfifo_size (rx_fifo (rx u)) = UNART_RX_FIFO_SIZE ->
  unart_rx_push_work u
  = (kfifo_data (rx_fifo (rx u)),
     set_rx u (rx_with_fifo (rx u) (mk_kfifo UNART_RX_FIFO_SIZE []))).
Proof.
  unfold kfifo_wf, kfifo_len, unart_rx_push_work, kfifo_out. intros Hwf Hsz.
  rewrite Hsz in *.
  rewrite firstn_all2, skipn_all2 by exact Hwf. reflexivity.
Qed.

Lemma rx_push_work_drains_queue_witness :
  kfifo_wf (rx_fifo (rx unart_rx_backlog))
  /\ kfifo_size (rx_fifo (rx unart_rx_backlog)) = UNART_RX_FIFO_SIZE
  /\ fst (unart_rx_push_work unart_rx_backlog) = repeat 85 32
  /\ kfifo_data (rx_fifo (rx (snd (unart_rx_push_work unart_rx_backlog)))) = [].
Proof.
  assert (H1 : kfifo_wf (rx_fifo (rx unart_rx_backlog)))
    by (vm_compute; repeat constructor).
  assert (H2 : kfifo_size (rx_fifo (rx unart_rx_backlog)) = UNART_RX_FIFO_SIZE)
    by reflexivity.
  split; [exact H1 |]. split; [exact H2 |].
  rewrite (rx_push_work_drains_queue unart_rx_backlog H1 H2).
  split; reflexivity.
Defined.

(** ** Writing to the transmitter *)

Lemma kfifo_in_overflow f buf :
  kfifo_wf f -> (kfifo_avail f < length buf)%nat ->
  fst (kfifo_in f buf) = kfifo_avail f
  /\ kfifo_len (snd (kfifo_in f buf)) = kfifo_size f
  /\ kfifo_is_full (snd (kfifo_in f buf)) = true.
Proof.
  unfold kfifo_wf, kfifo_in, kfifo_avail, kfifo_is_full, kfifo_len.
  intros Hwf Hlt. cbn [fst snd kfifo_size kfifo_data].
  rewrite Nat.min_r by lia. rewrite length_app, length_firstn, Nat.min_l by lia.
  repeat split; [lia | apply Nat.leb_le; lia].
Qed.

(** C4 (as amended).  With the diagnostic mode off, writing more bytes
    than the TX queue has room for returns the free capacity F, and the
    first F bytes of the buffer are appended to the queue.  When the TX
    timer is active the queue is left full and nothing else changes.
    When the timer is idle the oldest queued byte moves on into
    [payload], [bit_index] becomes -1 and the timer is armed for now +
    period, so the queue is left one byte short of full. *)
Theorem tx_write_truncates p now t buf :
  rx_debug p = false ->
  kfifo_wf (tx_fifo t) ->
  (0 < kfifo_size (tx_fifo t))%nat ->
  (unart_tx_write_room t < length buf)%nat ->
  let F := unart_tx_write_room t in
  let queued := kfifo_data (tx_fifo t) ++ firstn F buf in
  let t' := snd (unart_tx_write p now t buf) in
  fst (unart_tx_write p now t buf) = Z.of_nat F
  /\ length queued = kfifo_size (tx_fifo t)
  /\ if hrtimer_active (tx_timer t)
     then t' = tx_with_fifo t (mk_kfifo (kfifo_size (tx_fifo t)) queued)
          /\ kfifo_is_full (tx_fifo t') = true
          /\ unart_tx_write_room t' = 0%nat
     else t' = mk_tx (tx_gpio t) (mk_hrtimer true (now + tx_period t))
                 (tx_period t)
                 (mk_kfifo (kfifo_size (tx_fifo t)) (tl queued))
                 (wakeup_work t) (-1) (hd 0 queued)
          /\ unart_tx_write_room t' = 1%nat.
Proof.
  unfold unart_tx_write_room. intros Hdbg Hwf Hsz Hlt. cbv zeta.
  destruct (kfifo_in_overflow _ _ Hwf Hlt) as (Hret & Hlen & Hfull).
  unfold unart_tx_write. rewrite Hdbg.
  unfold kfifo_in in *. cbn [fst snd] in *.
  assert (Hmin : Nat.min (length buf) (kfifo_avail (tx_fifo t))
                 = kfifo_avail (tx_fifo t)) by (apply Nat.min_r; lia).
  rewrite Hmin in *. unfold kfifo_len in Hlen. cbn [kfifo_data] in Hlen.
  split; [reflexivity |]. split; [exact Hlen |].
  cbn [tx_with_fifo tx_timer tx_fifo].
  destruct (hrtimer_active (tx_timer t)); cbn [negb].
  - split; [reflexivity |]. split; [exact Hfull |].
    set (queued := kfifo_data (tx_fifo t) ++ firstn (kfifo_avail (tx_fifo t)) buf)
      in *.
    unfold kfifo_avail, kfifo_len.
    cbn [kfifo_size kfifo_data tx_fifo tx_with_fifo]. lia.
  - unfold kfifo_get. cbn [kfifo_data kfifo_size].
    destruct (kfifo_data (tx_fifo t) ++ firstn (kfifo_avail (tx_fifo t)) buf)
      as [| v rest] eqn:Eq; [cbn [length] in Hlen; lia |].
    cbn. split; [reflexivity |].
    unfold kfifo_avail, kfifo_len. cbn [kfifo_size kfifo_data].
    cbn [length] in Hlen. lia.
Qed.

Lemma tx_write_truncates_witness :
  let t := unart_tx_timer_fire 104166
             (snd (unart_tx_write params_default 0 tx_fresh (repeat 65 1024))) in
  rx_debug params_default = false
  /\ kfifo_wf (tx_fifo t)
  /\ (0 < kfifo_size (tx_fifo t))%nat
  /\ (unart_tx_write_room t < length [1; 2; 3])%nat
  /\ fst (unart_tx_write params_default 104170 t [1; 2; 3]) = 1
  /\ kfifo_is_full (tx_fifo (snd (unart_tx_write params_default 104170 t [1; 2; 3])))
     = true.
Proof.
  cbv zeta.
  set (t := unart_tx_timer_fire 104166
              (snd (unart_tx_write params_default 0 tx_fresh (repeat 65 1024)))).
  assert (H1 : rx_debug params_default = false) by reflexivity.
  assert (H2 : kfifo_wf (tx_fifo t)) by (apply Nat.leb_le; vm_compute; reflexivity).
  assert (H3 : (0 < kfifo_size (tx_fifo t))%nat)
    by (apply Nat.ltb_lt; vm_compute; reflexivity).
  assert (H4 : (unart_tx_write_room t < length [1; 2; 3])%nat)
    by (apply Nat.ltb_lt; vm_compute; reflexivity).
  split; [exact H1 |]. split; [exact H2 |]. split; [exact H3 |].
  split; [exact H4 |].
  pose proof (tx_write_truncates params_default 104170 t [1; 2; 3] H1 H2 H3 H4)
    as H.
  cbv zeta in H. destruct H as (Hret & _ & Hcase).
  assert (Hact : hrtimer_active (tx_timer t) = true) by (vm_compute; reflexivity).
  rewrite Hact in Hcase. destruct Hcase as (_ & Hfull & _).
  split; [rewrite Hret; vm_compute; reflexivity | exact Hfull].
Defined.

(** Counterexample to C4 as stated.  Writing 1025 bytes to the empty
    queue of an idle transmitter accepts 1024 of them and leaves 1023 in
    the queue: the first one is already in [payload]. *)
Lemma tx_write_idle_leaves_one_slot :
  let buf := repeat 65 1025 in
  let r := unart_tx_write params_default 0 tx_fresh buf in
  unart_tx_write_room tx_fresh = 1024%nat
  /\ hrtimer_active (tx_timer tx_fresh) = false
  /\ fst r = 1024
  /\ kfifo_len (tx_fifo (snd r)) = 1023%nat
  /\ unart_tx_write_room (snd r) = 1%nat
  /\ kfifo_is_full (tx_fifo (snd r)) = false.
Proof. vm_compute. repeat split. Qed.

(** ** Diagnostic mode *)

Lemma lxor_1_neq d : Z.lxor d 1 <> d.
Proof.
  intros H. apply (f_equal (fun x => Z.testbit x 0)) in H.
  rewrite Z.lxor_spec in H. change (Z.testbit 1 0) with true in H.
  destruct (Z.testbit d 0); discriminate.
Qed.

Lemma gpio_level_set g v : gpio_level (gpiod_set_raw_value g v) = v.
Proof. unfold gpio_level, gpiod_set_raw_value. apply last_last. Qed.

(** C8.  With [rx_debug] set, [unart_tx_write] returns the full count
    and the transmitter it was given, untouched; and each run of the RX
    timer callback flips [debug_toggle] and writes the new value to the TX
    line exactly once, changing nothing else of the transmitter.  When the
    line carries the previous toggle value, the write changes its
    level. *)
Theorem diagnostic_mode p :
  rx_debug p = true ->
  (forall now t buf,
     unart_tx_write p now t buf = (Z.of_nat (length buf), t))
  /\ (forall now bit u,
        let u' := snd (unart_rx_timer_callback p now bit u) in
        debug_toggle (rx u') = Z.lxor (debug_toggle (rx u)) 1
        /\ tx u' = tx_with_gpio (tx u)
                     (tx_gpio (tx u) ++ [Z.lxor (debug_toggle (rx u)) 1])
        /\ (gpio_level (tx_gpio (tx u)) = debug_toggle (rx u) ->
            gpio_level (tx_gpio (tx u')) <> gpio_level (tx_gpio (tx u)))).
Proof.
  intros Hdbg. split.
  - intros now t buf. unfold unart_tx_write. rewrite Hdbg. reflexivity.
  - intros now bit u. cbv zeta.
    assert (H : debug_toggle (rx (snd (unart_rx_timer_callback p now bit u)))
                = Z.lxor (debug_toggle (rx u)) 1
                /\ tx (snd (unart_rx_timer_callback p now bit u))
                   = tx_with_gpio (tx u)
                       (tx_gpio (tx u) ++ [Z.lxor (debug_toggle (rx u)) 1])).
    { unfold unart_rx_timer_callback, rx_rearm, unart_rx_debug_toggle, set_rx.
      rewrite Hdbg. cbn.
      destruct (rx_bit_index (rx u) =? -1); [destruct (bit =? 0) |];
        cbn; [split; reflexivity .. |].
      destruct (rx_bit_index (rx u) <? 8); [| destruct (bit =? 1)];
        cbn; split; reflexivity. }
    destruct H as [Ht Hx]. split; [exact Ht |]. split; [exact Hx |].
    intros Hlvl. rewrite Hx. cbn [tx_gpio tx_with_gpio].
    change (tx_gpio (tx u) ++ [Z.lxor (debug_toggle (rx u)) 1])
      with (gpiod_set_raw_value (tx_gpio (tx u)) (Z.lxor (debug_toggle (rx u)) 1)).
    rewrite gpio_level_set, Hlvl. apply lxor_1_neq.
Qed.

Lemma diagnostic_mode_witness :
  let u := unart_rx_irq_handler params_debug 0 unart_fresh in
  rx_debug params_debug = true
  /\ unart_tx_write params_debug 0 (tx u) [65; 66] = (2, tx u)
  /\ tx_gpio (tx u) = [1]
  /\ tx_gpio (tx (snd (unart_rx_timer_callback params_debug 31249 0 u))) = [1; 0].
Proof.
  cbv zeta.
  assert (H : rx_debug params_debug = true) by reflexivity.
  destruct (diagnostic_mode params_debug H) as (Hw & Hs).
  split; [exact H |]. split; [exact (Hw 0 _ [65; 66]) |].
  split; [reflexivity |].
  destruct (Hs 31249 0 (unart_rx_irq_handler params_debug 0 unart_fresh))
    as (_ & Hx & _).
  rewrite Hx. reflexivity.
Defined.

(** ** Transmission *)

(** A callback that runs less than one interval late moves the expiry
    by exactly one interval. *)
Lemma hrtimer_forward_on_time t now interval :
  hrtimer_resolution <= interval ->
  0 <= now - hrtimer_expires t < interval ->
  hrtimer_forward t now interval
  = mk_hrtimer (hrtimer_active t) (hrtimer_expires t + interval).
Proof.
  intros Hres Hlate. unfold hrtimer_forward.
  assert (E1 : (now - hrtimer_expires t <? 0) = false) by (apply Z.ltb_ge; lia).
  assert (E2 : (interval <? hrtimer_resolution) = false) by (apply Z.ltb_ge; lia).
  assert (E3 : (interval <=? now - hrtimer_expires t) = false)
    by (apply Z.leb_gt; lia).
  cbv zeta. rewrite E1, E2, E3. reflexivity.
Qed.

(** One expiry of the TX timer, served less than a period late. *)
Lemma tx_fire_on_time t late :
  hrtimer_resolution <= tx_period t ->
  0 <= late < tx_period t ->
  unart_tx_timer_fire (hrtimer_expires (tx_timer t) + late) t
  = let next := mk_hrtimer true (hrtimer_expires (tx_timer t) + tx_period t) in
    if tx_bit_index t =? -1 then
      mk_tx (tx_gpio t ++ [0]) next (tx_period t) (tx_fifo t) (wakeup_work t)
            0 (tx_payload t)
    else if tx_bit_index t <? 8 then
      mk_tx (tx_gpio t ++ [Z.land (tx_payload t) 1]) next (tx_period t)
            (tx_fifo t) (wakeup_work t) (tx_bit_index t + 1)
            (to_u8 (Z.shiftr (tx_payload t) 1))
    else
      match kfifo_data (tx_fifo t) with
      | [] =>
          mk_tx (tx_gpio t ++ [1])
                (mk_hrtimer false (hrtimer_expires (tx_timer t)))
                (tx_period t) (tx_fifo t) (mk_work true) (-1) (tx_payload t)
      | v :: rest =>
          mk_tx (tx_gpio t ++ [1]) next (tx_period t)
                (mk_kfifo (kfifo_size (tx_fifo t)) rest) (wakeup_work t) (-1) v
      end.
Proof.
  intros Hres Hlate.
  assert (Hfw : forall act,
             hrtimer_forward (mk_hrtimer act (hrtimer_expires (tx_timer t)))
               (hrtimer_expires (tx_timer t) + late) (tx_period t)
             = mk_hrtimer act (hrtimer_expires (tx_timer t) + tx_period t)).
  { intros act. rewrite hrtimer_forward_on_time; cbn; [reflexivity | lia | lia]. }
  destruct t as [g [act e] P f w i pl]. cbn in *.
  unfold unart_tx_timer_fire, unart_tx_timer_callback, tx_rearm.
  cbn [tx_bit_index tx_gpio tx_timer tx_period tx_fifo wakeup_work tx_payload
       tx_with_gpio tx_with_bit_index tx_with_payload tx_with_timer
       tx_with_fifo tx_with_wakeup_work].
  destruct (i =? -1).
  - rewrite Hfw. reflexivity.
  - destruct (i <? 8).
    + rewrite Hfw. reflexivity.
    + unfold kfifo_get. destruct (kfifo_data f) as [| v rest].
      * reflexivity.
      * cbn [tx_timer tx_period]. rewrite Hfw. reflexivity.
Qed.

Lemma tx_drive_cons late rest t :
  hrtimer_active (tx_timer t) = true ->
  hrtimer_resolution <= tx_period t ->
  0 <= late < tx_period t ->
  tx_drive (late :: rest) t
  = (hrtimer_expires (tx_timer t)
       :: fst (tx_drive rest
                 (unart_tx_timer_fire (hrtimer_expires (tx_timer t) + late) t)),
     snd (tx_drive rest
            (unart_tx_timer_fire (hrtimer_expires (tx_timer t) + late) t))).
Proof.
  intros Hact _ _. cbn [tx_drive]. rewrite Hact.
  destruct (tx_drive rest _). reflexivity.
Qed.

Lemma tx_drive_stopped lats t :
  hrtimer_active (tx_timer t) = false -> tx_drive lats t = ([], t).
Proof. intros H. destruct lats; cbn [tx_drive]; [| rewrite H]; reflexivity. Qed.

Lemma tx_write_idle_empty p now t v :
  rx_debug p = false ->
  tx_fifo t = kfifo_alloc UNART_TX_FIFO_SIZE ->
  hrtimer_active (tx_timer t) = false ->
  unart_tx_write p now t [v]
  = (1, mk_tx (tx_gpio t) (mk_hrtimer true (now + tx_period t)) (tx_period t)
              (tx_fifo t) (wakeup_work t) (-1) v).
Proof.
  intros Hdbg Hfifo Hact. unfold unart_tx_write. rewrite Hdbg, Hfifo.
  destruct t as [g tm P f w i pl]. cbn in Hact, Hfifo |- *. rewrite Hact.
  reflexivity.
Qed.

(** Steps of [tx_drive], one per branch of the callback. *)
Lemma tx_drive_start late rest g e P f w pl dues t' :
  hrtimer_resolution <= P -> 0 <= late < P ->
  tx_drive rest (mk_tx (g ++ [0]) (mk_hrtimer true (e + P)) P f w 0 pl)
  = (dues, t') ->
  tx_drive (late :: rest) (mk_tx g (mk_hrtimer true e) P f w (-1) pl)
  = (e :: dues, t').
Proof.
  intros Hres Hlate Hrest.
  rewrite tx_drive_cons, tx_fire_on_time by (cbn; first [reflexivity | lia]).
  cbn. rewrite Hrest. reflexivity.
Qed.

Lemma tx_drive_stop_empty late rest g e P f w pl :
  hrtimer_resolution <= P -> 0 <= late < P -> kfifo_data f = [] ->
  tx_drive (late :: rest) (mk_tx g (mk_hrtimer true e) P f w 8 pl)
  = ([e], mk_tx (g ++ [1]) (mk_hrtimer false e) P f (mk_work true) (-1) pl).
Proof.
  intros Hres Hlate Hf.
  rewrite tx_drive_cons, tx_fire_on_time by (cbn; first [reflexivity | lia]).
  cbn [tx_bit_index tx_gpio tx_timer tx_period tx_fifo wakeup_work tx_payload
       hrtimer_expires]. cbv zeta.
  change (8 =? -1) with false. change (8 <? 8) with false. cbv iota.
  rewrite Hf, tx_drive_stopped by reflexivity. reflexivity.
Qed.

Lemma land_1_testbit pl : Z.land pl 1 = Z.b2z (Z.testbit pl 0).
Proof.
  rewrite Z.bit0_mod. change 1 with (Z.ones 1) at 1.
  rewrite Z.land_ones by lia. reflexivity.
Qed.

Lemma u8_shiftr_1 pl : is_u8 pl -> to_u8 (Z.shiftr pl 1) = Z.shiftr pl 1.
Proof.
  unfold is_u8, to_u8, u8_modulus. intros H.
  rewrite Z.shiftr_div_pow2 by lia. change (2 ^ 1) with 2.
  apply Z.mod_small.
  split; [apply Z.div_pos; lia | apply Z.div_lt_upper_bound; lia].
Qed.

Lemma u8_shiftr_8 pl : is_u8 pl -> Z.shiftr pl 8 = 0.
Proof.
  unfold is_u8, u8_modulus. intros H. rewrite Z.shiftr_div_pow2 by lia.
  apply Z.div_small. exact H.
Qed.

(** The low bit goes out first; the rest are the bits of the shifted byte. *)
Lemma data_bits_shift pl n :
  map (fun k => Z.b2z (Z.testbit pl (Z.of_nat k))) (seq 0 (S n))
  = Z.land pl 1
    :: map (fun k => Z.b2z (Z.testbit (Z.shiftr pl 1) (Z.of_nat k))) (seq 0 n).
Proof.
  cbn [seq map]. rewrite land_1_testbit. f_equal.
  rewrite <- seq_shift, map_map. apply map_ext. intros k.
  rewrite Z.shiftr_spec by lia. rewrite Nat2Z.inj_succ. reflexivity.
Qed.

Lemma expiries_succ first period n :
  expiries first period (S n) = first :: expiries (first + period) period n.
Proof.
  unfold expiries. cbn [seq map]. f_equal; [lia |].
  rewrite <- seq_shift, map_map. apply map_ext. intros k. lia.
Qed.

(** Any number of data bits, by induction on the expiries served. *)
Lemma tx_drive_data_bits lats : forall rest g e P f w i pl,
  hrtimer_resolution <= P ->
  Forall (fun late => 0 <= late < P) lats ->
  0 <= i -> i + Z.of_nat (length lats) <= 8 ->
  is_u8 pl ->
  tx_drive (lats ++ rest) (mk_tx g (mk_hrtimer true e) P f w i pl)
  = let n := length lats in
    let t' := mk_tx (g ++ map (fun k => Z.b2z (Z.testbit pl (Z.of_nat k)))
                              (seq 0 n))
                    (mk_hrtimer true (e + Z.of_nat n * P)) P f w
                    (i + Z.of_nat n) (Z.shiftr pl (Z.of_nat n)) in
    (expiries e P n ++ fst (tx_drive rest t'), snd (tx_drive rest t')).
Proof.
  induction lats as [| late lats IH]; intros rest g e P f w i pl Hres Hl Hi Hn Hpl.
  - cbn [length app seq map expiries]. cbv zeta.
    change (Z.of_nat 0) with 0.
    rewrite app_nil_r, Z.mul_0_l, !Z.add_0_r, Z.shiftr_0_r.
    destruct (tx_drive rest _). reflexivity.
  - apply Forall_cons_iff in Hl. destruct Hl as [Hlate Hl].
    cbn [length] in *. rewrite Nat2Z.inj_succ in Hn.
    cbn [app]. rewrite tx_drive_cons, tx_fire_on_time
      by (cbn; first [reflexivity | lia]).
    cbn [tx_bit_index tx_gpio tx_timer tx_period tx_fifo wakeup_work tx_payload
         hrtimer_expires]. cbv zeta.
    assert (E1 : (i =? -1) = false) by (apply Z.eqb_neq; lia).
    assert (E2 : (i <? 8) = true) by (apply Z.ltb_lt; lia).
    rewrite E1, E2, u8_shiftr_1 by exact Hpl.
    rewrite IH; [| assumption | assumption | lia | lia |
                 rewrite <- u8_shiftr_1 by exact Hpl; apply is_u8_to_u8].
    cbv zeta. rewrite expiries_succ, data_bits_shift.
    rewrite Z.shiftr_shiftr by lia. rewrite <- app_assoc. cbn [app fst snd].
    rewrite Nat2Z.inj_succ.
    replace (e + P + Z.of_nat (length lats) * P)
      with (e + Z.succ (Z.of_nat (length lats)) * P) by lia.
    replace (i + 1 + Z.of_nat (length lats))
      with (i + Z.succ (Z.of_nat (length lats))) by lia.
    replace (1 + Z.of_nat (length lats))
      with (Z.succ (Z.of_nat (length lats))) by lia.
    reflexivity.
Qed.

(** One frame, from the armed transmitter holding [pl] to the stopped
    one: start bit, the bits of [pl] least significant first, stop bit,
    at ten expiries one period apart. *)
Lemma tx_drive_frame lats g e P f w pl :
  hrtimer_resolution <= P ->
  Forall (fun late => 0 <= late < P) lats ->
  (10 <= length lats)%nat ->
  is_u8 pl -> kfifo_data f = [] ->
  tx_drive lats (mk_tx g (mk_hrtimer true e) P f w (-1) pl)
  = (expiries e P 10,
     mk_tx (g ++ frame_bits 0 (data_bits pl) 1)
           (mk_hrtimer false (e + 9 * P)) P f (mk_work true) (-1) 0).
Proof.
  intros Hres Hl Hlen Hpl Hf.
  do 10 (destruct lats as [| ? lats]; [cbn in Hlen; lia |]).
  repeat match goal with
  | H : Forall _ (_ :: _) |- _ => apply Forall_cons_iff in H; destruct H as [? H]
  end.
  rewrite expiries_succ. apply tx_drive_start; [assumption .. |].
  match goal with
  | |- tx_drive (?a :: ?b :: ?c :: ?d :: ?e0 :: ?f0 :: ?g0 :: ?h :: ?tl) _ = _ =>
      change (a :: b :: c :: d :: e0 :: f0 :: g0 :: h :: tl)
        with ([a; b; c; d; e0; f0; g0; h] ++ tl)
  end.
  rewrite tx_drive_data_bits;
    [| assumption | repeat (apply Forall_cons; [assumption |]); apply Forall_nil
     | lia | cbn; lia | assumption].
  cbv zeta. cbn [length].
  rewrite (tx_drive_stop_empty _ lats) by assumption.
  cbn [fst snd]. rewrite u8_shiftr_8 by assumption.
  unfold frame_bits, data_bits. rewrite <- !app_assoc. cbn [app].
  change (Z.of_nat 8) with 8.
  replace (e + P + 8 * P) with (e + 9 * P) by lia.
  f_equal. unfold expiries. cbn [seq map app]. repeat (f_equal; try lia).
Qed.

(** C2.  With the diagnostic mode off, the TX queue empty and the TX
    timer idle, writing the byte 0x41 returns 1 and arms the timer for
    now + period with 0x41 in [payload].  If every expiry is then served
    less than a period late, the callback runs at the expiries
    now + period, now + 2 period, ..., now + 10 period and drives the line
    to 0, 1,0,0,0,0,0,1,0, 1; the tenth run leaves the timer stopped (no
    further expiry is served), the queue empty and the wakeup work
    scheduled. *)
Theorem tx_single_byte_0x41 p now t lats :
  rx_debug p = false ->
  tx_fifo t = kfifo_alloc UNART_TX_FIFO_SIZE ->
  hrtimer_active (tx_timer t) = false ->
  hrtimer_resolution <= tx_period t ->
  (10 <= length lats)%nat ->
  Forall (fun late => 0 <= late < tx_period t) lats ->
  let w := unart_tx_write p now t [65] in
  fst w = 1
  /\ tx_timer (snd w) = mk_hrtimer true (now + tx_period t)
  /\ tx_payload (snd w) = 65 /\ tx_bit_index (snd w) = -1
  /\ fst (tx_drive lats (snd w))
     = map (fun k => now + k * tx_period t) [1; 2; 3; 4; 5; 6; 7; 8; 9; 10]
  /\ tx_gpio (snd (tx_drive lats (snd w)))
     = tx_gpio t ++ [0; 1; 0; 0; 0; 0; 0; 1; 0; 1]
  /\ hrtimer_active (tx_timer (snd (tx_drive lats (snd w)))) = false
  /\ tx_fifo (snd (tx_drive lats (snd w))) = tx_fifo t
  /\ wakeup_work (snd (tx_drive lats (snd w))) = mk_work true.
Proof.
  intros Hdbg Hfifo Hact Hres Hlen Hlats. cbv zeta.
  rewrite (tx_write_idle_empty p now t 65 Hdbg Hfifo Hact). cbn [fst snd].
  do 4 (split; [reflexivity |]).
  rewrite tx_drive_frame;
    [| exact Hres | exact Hlats | exact Hlen
     | unfold is_u8, u8_modulus; lia | rewrite Hfifo; reflexivity].
  cbn [fst snd tx_gpio tx_timer hrtimer_active tx_fifo wakeup_work].
  split; [| repeat split].
  unfold expiries. cbn [seq map]. repeat (f_equal; try lia).
Qed.

Lemma tx_single_byte_0x41_witness :
  let w := unart_tx_write params_default 1000 tx_fresh [65] in
  rx_debug params_default = false
  /\ tx_fifo tx_fresh = kfifo_alloc UNART_TX_FIFO_SIZE
  /\ hrtimer_active (tx_timer tx_fresh) = false
  /\ hrtimer_resolution <= tx_period tx_fresh
  /\ (10 <= length latencies_sample)%nat
  /\ Forall (fun late => 0 <= late < tx_period tx_fresh) latencies_sample
  /\ fst w = 1
  /\ tx_timer (snd w) = mk_hrtimer true 105166
  /\ tx_gpio (snd (tx_drive latencies_sample (snd w)))
     = [0; 1; 0; 0; 0; 0; 0; 1; 0; 1]
  /\ hrtimer_active (tx_timer (snd (tx_drive latencies_sample (snd w)))) = false.
Proof.
  cbv zeta.
  assert (H1 : rx_debug params_default = false) by reflexivity.
  assert (H2 : tx_fifo tx_fresh = kfifo_alloc UNART_TX_FIFO_SIZE) by reflexivity.
  assert (H3 : hrtimer_active (tx_timer tx_fresh) = false) by reflexivity.
  assert (H4 : hrtimer_resolution <= tx_period tx_fresh) by discriminate.
  assert (H5 : (10 <= length latencies_sample)%nat)
    by (apply Nat.leb_le; reflexivity).
  assert (H6 : Forall (fun late => 0 <= late < tx_period tx_fresh) latencies_sample)
    by (repeat constructor; discriminate).
  split; [exact H1 |]. split; [exact H2 |]. split; [exact H3 |].
  split; [exact H4 |]. split; [exact H5 |]. split; [exact H6 |].
  destruct (tx_single_byte_0x41 params_default 1000 tx_fresh _ H1 H2 H3 H4 H5 H6)
    as (Hr & Ht & _ & _ & _ & Hg & Ha & _).
  split; [exact Hr |]. split; [exact Ht |]. split; [exact Hg | exact Ha].
Defined.

(** ** The receiver's timer over whole runs *)

Lemma kfifo_put_wf f v :
  kfifo_wf f ->
  kfifo_wf (snd (kfifo_put f v))
  /\ kfifo_size (snd (kfifo_put f v)) = kfifo_size f.
Proof.
  unfold kfifo_wf, kfifo_put, kfifo_is_full, kfifo_len. intros Hwf.
  destruct (Nat.leb_spec (kfifo_size f) (length (kfifo_data f))); cbn.
  - auto.
  - rewrite length_app. cbn. split; [lia | reflexivity].
Qed.

Lemma kfifo_out_wf f n :
  kfifo_wf f ->
  kfifo_wf (snd (kfifo_out f n))
  /\ kfifo_size (snd (kfifo_out f n)) = kfifo_size f.
Proof.
  unfold kfifo_wf, kfifo_out, kfifo_len. cbn. rewrite length_skipn.
  intros Hwf. split; [lia | reflexivity].
Qed.

(** The callback leaves the line configuration alone. *)
Lemma rx_fire_config p now bit u :
  skew_percent (rx (unart_rx_timer_fire p now bit u)) = skew_percent (rx u).
Proof.
  rx_unfold.
  destruct (rx_debug p); cbn;
    (destruct (rx_bit_index (rx u) =? -1);
     [destruct (bit =? 0) | destruct (rx_bit_index (rx u) <? 8);
                            [| destruct (bit =? 1)]]);
    reflexivity.
Qed.

Lemma rx_irq_ignored_guard p now u :
  negb (rx_bit_index (rx u) =? -1) || hrtimer_active (rx_timer (rx u)) = true ->
  unart_rx_irq_handler p now u = u.
Proof. intros G. unfold unart_rx_irq_handler. rewrite G. reflexivity. Qed.

(** The labels of [rx_observe] name what the handlers do. *)
Lemma rx_observe_edge p now u :
  match rx_observe (EvEdge now) u with
  | ObsEdgeIgnored => unart_rx_irq_handler p now u = u
  | ObsEdgeAccepted =>
      rx_timer (rx (unart_rx_irq_handler p now u))
      = mk_hrtimer true (now + skew (rx u))
      /\ rx_payload (rx (unart_rx_irq_handler p now u)) = 0
  | _ => False
  end.
Proof.
  unfold rx_observe, unart_rx_irq_handler, unart_rx_debug_toggle, set_rx.
  destruct (negb (rx_bit_index (rx u) =? -1) || hrtimer_active (rx_timer (rx u))).
  - reflexivity.
  - destruct (rx_debug p); split; reflexivity.
Qed.

Lemma rx_observe_stop p now bit u :
  match rx_observe (EvTimer now bit) u with
  | ObsStopValid =>
      rx_fifo (rx (unart_rx_timer_fire p now bit u))
      = snd (kfifo_put (rx_fifo (rx u)) (rx_payload (rx u)))
      /\ push_work (rx (unart_rx_timer_fire p now bit u)) = mk_work true
      /\ hrtimer_active (rx_timer (rx (unart_rx_timer_fire p now bit u))) = false
  | ObsStopInvalid | ObsStartInvalid =>
      rx_fifo (rx (unart_rx_timer_fire p now bit u)) = rx_fifo (rx u)
      /\ push_work (rx (unart_rx_timer_fire p now bit u)) = push_work (rx u)
      /\ hrtimer_active (rx_timer (rx (unart_rx_timer_fire p now bit u))) = false
  | _ =>
      hrtimer_active (rx_timer (rx (unart_rx_timer_fire p now bit u))) = true
  end.
Proof.
  unfold rx_observe. rx_unfold.
  destruct (rx_debug p); cbn;
    (destruct (rx_bit_index (rx u) =? -1);
     [destruct (bit =? 0) | destruct (rx_bit_index (rx u) <? 8);
                            [| destruct (bit =? 1)]]);
    cbn; repeat split.
Qed.

Lemma rx_irq_accepted p now u :
  rx_bit_index (rx u) = -1 -> hrtimer_active (rx_timer (rx u)) = false ->
  rx_view_of (unart_rx_irq_handler p now u)
  = mk_rx_view (-1) 0 (rx_fifo (rx u)) (push_work (rx u)) true
  /\ skew_percent (rx (unart_rx_irq_handler p now u)) = skew_percent (rx u).
Proof.
  intros Hi Ha. unfold unart_rx_irq_handler, unart_rx_debug_toggle, rx_view_of, set_rx.
  rewrite Hi, Ha. cbn. destruct (rx_debug p); cbn; rewrite Hi; split; reflexivity.
Qed.

Lemma rx_shift_in_u8 bit payload : is_u8 (rx_shift_in bit payload).
Proof. apply is_u8_to_u8. Qed.

Ltac rx_inv_close :=
  unfold rx_inv, is_u8, u8_modulus in *;
  repeat match goal with |- _ /\ _ => split end;
  first [ assumption | reflexivity | lia | discriminate
        | intros _; reflexivity | intro; discriminate | congruence ].

Lemma rx_inv_init u : rx_initial u -> rx_inv u [].
Proof.
  intros (p & e & Hsetup). apply unart_rx_setup_ok in Hsetup.
  destruct Hsetup as (Hi & _ & Hf & _ & Ha & Hsp & Hpl).
  assert (Hwf : kfifo_wf (kfifo_alloc UNART_RX_FIFO_SIZE))
    by (unfold kfifo_wf, kfifo_len; cbn; lia).
  unfold rx_inv. rewrite Ha, Hi, Hf, Hpl. cbn [frame_open rx_zeroed rx_payload].
  rx_inv_close.
Qed.

Lemma rx_inv_step u tr p e u' :
  rx_inv u tr -> rx_step p e u = Some u' -> rx_inv u' (rx_observe e u :: tr).
Proof.
  intros (Hact & Hidle & Hrange & Hpl & Hwf & Hsz & Hsp) Hstep.
  destruct e as [now | now bit | | b]; cbn [rx_step rx_observe] in *.
  - (* edge *)
    injection Hstep as <-.
    destruct (negb (rx_bit_index (rx u) =? -1) || hrtimer_active (rx_timer (rx u)))
      eqn:G.
    + rewrite rx_irq_ignored_guard by exact G. cbn [frame_open]. rx_inv_close.
    + apply orb_false_elim in G. destruct G as [G1 G2].
      apply negb_false_iff, Z.eqb_eq in G1.
      destruct (rx_irq_accepted p now u G1 G2) as [Hv Hc].
      apply rx_view_inv in Hv. destruct Hv as (Hi' & Hpl' & Hf' & _ & Ha').
      unfold rx_inv. rewrite Ha', Hi', Hpl', Hf', Hc. cbn [frame_open].
      rx_inv_close.
  - (* timer *)
    destruct (hrtimer_active (rx_timer (rx u))) eqn:Ha; [| discriminate].
    destruct (hrtimer_expires (rx_timer (rx u)) <=? now); [| discriminate].
    injection Hstep as <-.
    pose proof (rx_fire_config p now bit u) as Hc.
    unfold rx_inv. rewrite Hc.
    destruct (Z.eq_dec (rx_bit_index (rx u)) (-1)) as [Ei | Ni].
    + rewrite Ei. change (-1 =? -1) with true. cbv iota.
      destruct (Z.eq_dec bit 0) as [-> | Nb].
      * pose proof (rx_fire_start_valid p now u Ei) as Hv.
        apply rx_view_inv in Hv. destruct Hv as (Hi' & Hpl' & Hf' & _ & Ha').
        rewrite Ha', Hi', Hpl', Hf'. cbn [negb Z.eqb frame_open].
        rx_inv_close.
      * pose proof (rx_fire_start_invalid p now bit u Ei Nb) as Hv.
        apply rx_view_inv in Hv. destruct Hv as (Hi' & Hpl' & Hf' & _ & Ha').
        rewrite Ha', Hi', Hpl', Hf'. apply Z.eqb_neq in Nb. rewrite Nb.
        cbn [negb frame_open]. rx_inv_close.
    + assert (E1 : (rx_bit_index (rx u) =? -1) = false) by (apply Z.eqb_neq; lia).
      rewrite E1.
      destruct (Z_lt_ge_dec (rx_bit_index (rx u)) 8) as [Hlt | Hge].
      * assert (E2 : (rx_bit_index (rx u) <? 8) = true) by (apply Z.ltb_lt; lia).
        rewrite E2.
        pose proof (rx_fire_data p now bit u ltac:(lia)) as Hv.
        apply rx_view_inv in Hv. destruct Hv as (Hi' & Hpl' & Hf' & _ & Ha').
        pose proof (rx_shift_in_u8 bit (rx_payload (rx u))) as Hu8.
        rewrite Ha', Hi', Hpl', Hf'. cbn [frame_open]. rx_inv_close.
      * assert (E2 : (rx_bit_index (rx u) <? 8) = false) by (apply Z.ltb_ge; lia).
        rewrite E2.
        pose proof (rx_fire_stop p now bit u ltac:(lia)) as Hv.
        destruct (kfifo_put_wf (rx_fifo (rx u)) (rx_payload (rx u)) Hwf)
          as [Hwf' Hsz'].
        destruct (bit =? 1);
          apply rx_view_inv in Hv; destruct Hv as (Hi' & Hpl' & Hf' & _ & Ha');
          rewrite Ha', Hi', Hpl', Hf'; cbn [frame_open]; rx_inv_close.
  - (* deferred delivery *)
    destruct (work_pending (push_work (rx u))); [| discriminate].
    injection Hstep as <-.
    destruct (kfifo_out_wf (rx_fifo (rx u)) UNART_RX_FIFO_SIZE Hwf) as [Hwf' Hsz'].
    unfold unart_rx_push_work, rx_inv. cbn in *. rx_inv_close.
  - (* baud rate *)
    unfold unart_rx_set_baud_rate in Hstep.
    destruct (c_div NSEC_PER_SEC b); [| discriminate].
    injection Hstep as <-. unfold rx_inv. cbn. rx_inv_close.
Qed.

Lemma rx_reachable_inv u tr : rx_reachable u tr -> rx_inv u tr.
Proof.
  induction 1 as [u Hinit | u tr p e u' _ IH Hstep].
  - apply rx_inv_init. exact Hinit.
  - eapply rx_inv_step; eassumption.
Qed.

Lemma run_configured_reachable : rx_reachable run_configured [ObsOther].
Proof.
  change [ObsOther] with [rx_observe (EvSetBaudRate 9600) unart_probed].
  apply rx_reach_step with (p := params_default).
  - apply rx_reach_init. exists params_default, probe_ok.
    vm_compute. reflexivity.
  - vm_compute. reflexivity.
Qed.

Lemma run_edge_reachable : rx_reachable run_edge [ObsEdgeAccepted; ObsOther].
Proof.
  assert (E : rx_observe (EvEdge 0) run_configured = ObsEdgeAccepted)
    by (vm_compute; reflexivity).
  rewrite <- E. apply rx_reach_step with (p := params_default).
  - exact run_configured_reachable.
  - vm_compute. reflexivity.
Qed.

Lemma run_glitch_reachable :
  rx_reachable run_glitch [ObsStartInvalid; ObsEdgeAccepted; ObsOther].
Proof.
  assert (E : rx_observe (EvTimer 31249 1) run_edge = ObsStartInvalid)
    by (vm_compute; reflexivity).
  rewrite <- E. apply rx_reach_step with (p := params_default).
  - exact run_edge_reachable.
  - vm_compute. reflexivity.
Qed.

(** C7 (as amended).  In every state the receiver reaches from a
    successful setup by edge interrupts, timer expiries, deliveries and
    baud-rate changes, the RX timer is active exactly when an edge has
    been accepted and neither a rejected start-bit sample nor a stop-bit
    sample (valid or not) has followed it. *)
Theorem rx_timer_active_iff_frame_open u tr :
  rx_reachable u tr ->
  hrtimer_active (rx_timer (rx u)) = frame_open tr.
Proof.
  intros H. apply rx_reachable_inv in H. destruct H as [H _]. exact H.
Qed.

Lemma rx_timer_active_iff_frame_open_witness :
  rx_reachable run_edge [ObsEdgeAccepted; ObsOther]
  /\ hrtimer_active (rx_timer (rx run_edge)) = true
  /\ frame_open [ObsEdgeAccepted; ObsOther] = true.
Proof.
  split; [exact run_edge_reachable |].
  split; [| reflexivity].
  rewrite (rx_timer_active_iff_frame_open run_edge _ run_edge_reachable).
  reflexivity.
Defined.

(** Counterexample to C7 as stated.  After an accepted edge whose
    start-bit sample reads 1, no stop-bit sample has occurred, and the
    timer is stopped. *)
Lemma rx_timer_stopped_after_rejected_start :
  rx_reachable run_glitch [ObsStartInvalid; ObsEdgeAccepted; ObsOther]
  /\ frame_open_spec [ObsStartInvalid; ObsEdgeAccepted; ObsOther] = true
  /\ hrtimer_active (rx_timer (rx run_glitch)) = false
  /\ hrtimer_active (rx_timer (rx run_glitch))
     <> frame_open_spec [ObsStartInvalid; ObsEdgeAccepted; ObsOther].
Proof.
  split; [exact run_glitch_reachable |].
  split; [reflexivity |].
  assert (E : hrtimer_active (rx_timer (rx run_glitch)) = false)
    by (vm_compute; reflexivity).
  split; [exact E |]. rewrite E. discriminate.
Qed.

(** In every reachable state the RX queue is within its 32 bytes, so a
    delivery always empties it. *)
Corollary rx_reachable_queue_bound u tr :
  rx_reachable u tr ->
  kfifo_wf (rx_fifo (rx u)) /\ kfifo_size (rx_fifo (rx u)) = UNART_RX_FIFO_SIZE.
Proof.
  intros H. apply rx_reachable_inv in H. unfold rx_inv in H. tauto.
Qed.

(** [bit_index] stays within -1 .. 8 and [skew_percent] within 0 .. 100. *)
Corollary rx_reachable_ranges u tr :
  rx_reachable u tr ->
  -1 <= rx_bit_index (rx u) <= 8 /\ 0 <= skew_percent (rx u) <= 100
  /\ is_u8 (rx_payload (rx u)).
Proof.
  intros H. apply rx_reachable_inv in H. unfold rx_inv in H. tauto.
Qed.

(** Sanity of the sample device: 9600 baud with the default skew. *)
Example run_configured_timing :
  rx_period (rx run_configured) = 104166 /\ skew (rx run_configured) = 31249.
Proof. split; vm_compute; reflexivity. Qed.

Example unart_fresh_is_configured : rx unart_fresh = rx run_configured.
Proof. vm_compute. reflexivity. Qed.

(** * Further properties of the transmitter *)

(** One expiry of the TX timer at any time, branch by branch. *)
Lemma tx_fire_cases now t :
  unart_tx_timer_fire now t
  = let next :=
      mk_hrtimer true
        (hrtimer_expires (hrtimer_forward (tx_timer t) now (tx_period t))) in
    if tx_bit_index t =? -1 then
      mk_tx (tx_gpio t ++ [0]) next (tx_period t) (tx_fifo t) (wakeup_work t)
            0 (tx_payload t)
    else if tx_bit_index t <? 8 then
      mk_tx (tx_gpio t ++ [Z.land (tx_payload t) 1]) next (tx_period t)
            (tx_fifo t) (wakeup_work t) (tx_bit_index t + 1)
            (to_u8 (Z.shiftr (tx_payload t) 1))
    else
      match kfifo_data (tx_fifo t) with
      | [] =>
          mk_tx (tx_gpio t ++ [1])
                (mk_hrtimer false (hrtimer_expires (tx_timer t)))
                (tx_period t) (tx_fifo t) (mk_work true) (-1) (tx_payload t)
      | v :: rest =>
          mk_tx (tx_gpio t ++ [1]) next (tx_period t)
                (mk_kfifo (kfifo_size (tx_fifo t)) rest) (wakeup_work t) (-1) v
      end.
Proof.
  destruct t as [g tm P f w i pl].
  unfold unart_tx_timer_fire, unart_tx_timer_callback, tx_rearm, kfifo_get.
  cbn [tx_bit_index tx_gpio tx_timer tx_period tx_fifo wakeup_work tx_payload
       tx_with_gpio tx_with_bit_index tx_with_payload tx_with_timer
       tx_with_fifo tx_with_wakeup_work]. cbv zeta.
  destruct (i =? -1); [reflexivity |].
  destruct (i <? 8); [reflexivity |].
  destruct (kfifo_data f); reflexivity.
Qed.

(** What a write does, whatever the state of the engine. *)
Lemma tx_write_cases p now t buf :
  rx_debug p = false ->
  unart_tx_write p now t buf
  = let n := Nat.min (length buf) (unart_tx_write_room t) in
    let queued := kfifo_data (tx_fifo t) ++ firstn n buf in
    (Z.of_nat n,
     if hrtimer_active (tx_timer t)
     then tx_with_fifo t (mk_kfifo (kfifo_size (tx_fifo t)) queued)
     else
       match queued with
       | [] => tx_with_fifo t (mk_kfifo (kfifo_size (tx_fifo t)) [])
       | v :: rest =>
           mk_tx (tx_gpio t) (mk_hrtimer true (now + tx_period t)) (tx_period t)
                 (mk_kfifo (kfifo_size (tx_fifo t)) rest) (wakeup_work t) (-1) v
       end).
Proof.
  intros Hdbg. destruct t as [g tm P f w i pl].
  unfold unart_tx_write, unart_tx_write_room, kfifo_in, kfifo_get.
  rewrite Hdbg. cbn [tx_fifo tx_timer tx_with_fifo kfifo_data kfifo_size].
  cbv zeta. f_equal.
  destruct (hrtimer_active tm); cbn [negb]; [reflexivity |].
  destruct (kfifo_data f ++ firstn (Nat.min (length buf) (kfifo_avail f)) buf);
    reflexivity.
Qed.

Lemma is_u8b_spec x : is_u8b x = true <-> is_u8 x.
Proof.
  unfold is_u8b, is_u8. rewrite andb_true_iff, Z.leb_le, Z.ltb_lt. tauto.
Qed.

Lemma forallb_is_u8 buf : forallb is_u8b buf = true -> Forall is_u8 buf.
Proof.
  rewrite forallb_forall, Forall_forall. intros H x Hx.
  apply is_u8b_spec, H, Hx.
Qed.






Lemma tx_drive_start_eq late rest g e P f w pl :
  hrtimer_resolution <= P -> 0 <= late < P ->
  tx_drive (late :: rest) (mk_tx g (mk_hrtimer true e) P f w (-1) pl)
  = let t' := mk_tx (g ++ [0]) (mk_hrtimer true (e + P)) P f w 0 pl in
    (e :: fst (tx_drive rest t'), snd (tx_drive rest t')).
Proof.
  intros Hres Hlate. cbv zeta.
  destruct (tx_drive rest (mk_tx (g ++ [0]) (mk_hrtimer true (e + P)) P f w 0 pl))
    as [dues t'] eqn:Hr.
  apply tx_drive_start; assumption.
Qed.

(** The stop bit with another byte queued: the byte is loaded and the
    timer stays armed, one period on. *)
Lemma tx_drive_stop_next late rest g e P sz v q w pl :
  hrtimer_resolution <= P -> 0 <= late < P ->
  tx_drive (late :: rest)
           (mk_tx g (mk_hrtimer true e) P (mk_kfifo sz (v :: q)) w 8 pl)
  = let t' := mk_tx (g ++ [1]) (mk_hrtimer true (e + P)) P (mk_kfifo sz q) w
                    (-1) v in
    (e :: fst (tx_drive rest t'), snd (tx_drive rest t')).
Proof.
  intros Hres Hlate.
  rewrite tx_drive_cons, tx_fire_on_time by (cbn; first [reflexivity | lia]).
  reflexivity.
Qed.

Lemma expiries_app period n m : forall first,
  expiries first period (n + m)
  = expiries first period n ++ expiries (first + Z.of_nat n * period) period m.
Proof.
  induction n as [| n IH]; intros first.
  - cbn [Nat.add]. change (Z.of_nat 0) with 0.
    rewrite Z.mul_0_l, Z.add_0_r. reflexivity.
  - cbn [Nat.add]. rewrite !expiries_succ, IH. cbn [app]. do 3 f_equal. lia.
Qed.

Lemma tx_frame_length b : length (tx_frame b) = 10%nat.
Proof. reflexivity. Qed.

(** One frame with another byte queued behind it. *)
Lemma tx_drive_frame_next lats rest g e P sz v q w pl :
  hrtimer_resolution <= P ->
  Forall (fun late => 0 <= late < P) lats ->
  length lats = 10%nat ->
  is_u8 pl ->
  tx_drive (lats ++ rest)
           (mk_tx g (mk_hrtimer true e) P (mk_kfifo sz (v :: q)) w (-1) pl)
  = let t' := mk_tx (g ++ tx_frame pl) (mk_hrtimer true (e + 10 * P)) P
                    (mk_kfifo sz q) w (-1) v in
    (expiries e P 10 ++ fst (tx_drive rest t'), snd (tx_drive rest t')).
Proof.
  intros Hres Hl Hlen Hpl.
  do 10 (destruct lats as [| ? lats]; [discriminate Hlen |]).
  destruct lats; [| discriminate Hlen].
  repeat match goal with
  | H : Forall _ (_ :: _) |- _ => apply Forall_cons_iff in H; destruct H as [? H]
  end.
  cbn [app]. rewrite tx_drive_start_eq by assumption. cbv zeta.
  match goal with
  | |- context [tx_drive (?a :: ?b :: ?c :: ?d :: ?e0 :: ?f0 :: ?g0 :: ?h :: ?tl) _] =>
      change (a :: b :: c :: d :: e0 :: f0 :: g0 :: h :: tl)
        with ([a; b; c; d; e0; f0; g0; h] ++ tl)
  end.
  rewrite tx_drive_data_bits;
    [| assumption | repeat (apply Forall_cons; [assumption |]); apply Forall_nil
     | lia | cbn; lia | assumption].
  cbv zeta. cbn [length fst snd].
  rewrite (tx_drive_stop_next _ rest) by assumption.
  cbv zeta. cbn [fst snd].
  match goal with
  | |- context [tx_drive rest ?s] =>
      replace s
        with (mk_tx (g ++ tx_frame pl) (mk_hrtimer true (e + 10 * P)) P
                    (mk_kfifo sz q) w (-1) v)
  end.
  - f_equal. set (tail := fst (tx_drive rest _)).
    unfold expiries. cbn [seq map app]. repeat (f_equal; try lia).
  - unfold tx_frame, frame_bits, data_bits. rewrite <- !app_assoc. cbn [app].
    change (Z.of_nat 8) with 8. do 2 f_equal. lia.
Qed.

(** A whole queue: each byte's frame follows the previous one's stop
    bit at the very next expiry; the timer stops after the last. *)
Lemma tx_drive_queue P sz w : forall q lats g e pl,
  hrtimer_resolution <= P ->
  Forall (fun late => 0 <= late < P) lats ->
  (10 * S (length q) <= length lats)%nat ->
  is_u8 pl -> Forall is_u8 q ->
  tx_drive lats (mk_tx g (mk_hrtimer true e) P (mk_kfifo sz q) w (-1) pl)
  = (expiries e P (10 * S (length q)),
     mk_tx (g ++ concat (map tx_frame (pl :: q)))
           (mk_hrtimer false (e + (Z.of_nat (10 * S (length q)) - 1) * P))
           P (mk_kfifo sz []) (mk_work true) (-1) 0).
Proof.
  induction q as [| v q IH]; intros lats g e pl Hres Hl Hlen Hpl Hq.
  - cbn [length] in *. rewrite tx_drive_frame; try assumption; [| reflexivity].
    cbn [map concat]. rewrite app_nil_r. reflexivity.
  - apply Forall_cons_iff in Hq. destruct Hq as [Hv Hq].
    cbn [length] in Hlen.
    rewrite <- (firstn_skipn 10 lats) in Hl |- *.
    apply Forall_app in Hl. destruct Hl as [Hl1 Hl2].
    assert (Hlen1 : length (firstn 10 lats) = 10%nat)
      by (rewrite length_firstn; lia).
    assert (Hlen2 : (10 * S (length q) <= length (skipn 10 lats))%nat)
      by (rewrite length_skipn; lia).
    rewrite tx_drive_frame_next by assumption. cbv zeta.
    rewrite IH by assumption. cbn [fst snd].
    f_equal.
    + replace (10 * S (length (v :: q)))%nat
        with (10 + 10 * S (length q))%nat by (cbn [length]; lia).
      rewrite expiries_app. change (Z.of_nat 10) with 10. reflexivity.
    + cbn [map concat]. rewrite <- !app_assoc. f_equal. f_equal.
      cbn [length]. lia.
Qed.

(** ** Extra properties: the transmitter *)

(** A write to the idle transmitter, then the timer served on time. *)
Lemma tx_write_then_drive p now t buf lats :
  rx_debug p = false ->
  tx_fifo t = kfifo_alloc UNART_TX_FIFO_SIZE ->
  hrtimer_active (tx_timer t) = false ->
  hrtimer_resolution <= tx_period t ->
  buf <> [] -> (length buf <= UNART_TX_FIFO_SIZE)%nat ->
  Forall is_u8 buf ->
  (10 * length buf <= length lats)%nat ->
  Forall (fun late => 0 <= late < tx_period t) lats ->
  let w := unart_tx_write p now t buf in
  let r := tx_drive lats (snd w) in
  fst w = Z.of_nat (length buf)
  /\ fst r = expiries (now + tx_period t) (tx_period t) (10 * length buf)
  /\ tx_gpio (snd r) = tx_gpio t ++ concat (map tx_frame buf)
  /\ hrtimer_active (tx_timer (snd r)) = false
  /\ kfifo_data (tx_fifo (snd r)) = []
  /\ wakeup_work (snd r) = mk_work true.
Proof.
  intros Hdbg Hfifo Hact Hres Hne Hlen Hu8 Hlats Hlate. cbv zeta.
  rewrite (tx_write_cases p now t buf Hdbg). cbv zeta.
  unfold unart_tx_write_room. rewrite Hfifo, Hact.
  unfold kfifo_avail, kfifo_len. cbn [kfifo_alloc kfifo_size kfifo_data length app].
  rewrite Nat.sub_0_r, Nat.min_l by exact Hlen. rewrite firstn_all.
  destruct buf as [| b buf]; [contradiction |].
  apply Forall_cons_iff in Hu8. destruct Hu8 as [Hb Hu8].
  cbn [fst snd]. split; [reflexivity |].
  rewrite tx_drive_queue by assumption. cbn [fst snd tx_gpio tx_timer
    hrtimer_active tx_fifo kfifo_data wakeup_work length].
  repeat split.
Qed.

(** X1.  Back-to-back transmission.  With the diagnostic mode off, a
    write of n >= 1 bytes (at most the queue capacity) to an idle
    transmitter with an empty queue accepts them all; served on time, the
    callback then runs at the 10 n expiries now + period, now + 2 period,
    ..., drives the line through the frames of the bytes in order, each
    start bit exactly one period after the previous stop bit, and stops
    after the last stop bit with the queue empty and the wakeup
    scheduled. *)
Theorem tx_back_to_back p now t buf lats :
  rx_debug p = false ->
  tx_fifo t = kfifo_alloc UNART_TX_FIFO_SIZE ->
  hrtimer_active (tx_timer t) = false ->
  hrtimer_resolution <= tx_period t ->
  buf <> [] -> (length buf <= UNART_TX_FIFO_SIZE)%nat ->
  Forall is_u8 buf ->
  (10 * length buf <= length lats)%nat ->
  Forall (fun late => 0 <= late < tx_period t) lats ->
  let w := unart_tx_write p now t buf in
  let r := tx_drive lats (snd w) in
  fst w = Z.of_nat (length buf)
  /\ fst r = expiries (now + tx_period t) (tx_period t) (10 * length buf)
  /\ tx_gpio (snd r) = tx_gpio t ++ concat (map tx_frame buf)
  /\ hrtimer_active (tx_timer (snd r)) = false
  /\ kfifo_data (tx_fifo (snd r)) = []
  /\ wakeup_work (snd r) = mk_work true.
Proof. apply tx_write_then_drive. Qed.

Lemma tx_back_to_back_witness :
  let w := unart_tx_write params_default 1000 tx_configured [65; 66] in
  let r := tx_drive latencies_twenty (snd w) in
  rx_debug params_default = false
  /\ tx_fifo tx_configured = kfifo_alloc UNART_TX_FIFO_SIZE
  /\ hrtimer_active (tx_timer tx_configured) = false
  /\ hrtimer_resolution <= tx_period tx_configured
  /\ [65; 66] <> []
  /\ (length [65; 66] <= UNART_TX_FIFO_SIZE)%nat
  /\ Forall is_u8 [65; 66]
  /\ (10 * length [65; 66] <= length latencies_twenty)%nat
  /\ Forall (fun late => 0 <= late < tx_period tx_configured) latencies_twenty
  /\ tx_gpio (snd r)
     = [0; 1; 0; 0; 0; 0; 0; 1; 0; 1; 0; 0; 1; 0; 0; 0; 0; 1; 0; 1]
  /\ hrtimer_active (tx_timer (snd r)) = false.
Proof.
  cbv zeta.
  assert (H1 : rx_debug params_default = false) by reflexivity.
  assert (H2 : tx_fifo tx_configured = kfifo_alloc UNART_TX_FIFO_SIZE)
    by (vm_compute; reflexivity).
  assert (H3 : hrtimer_active (tx_timer tx_configured) = false)
    by (vm_compute; reflexivity).
  assert (H4 : hrtimer_resolution <= tx_period tx_configured)
    by (vm_compute; discriminate).
  assert (H5 : [65; 66] <> []) by discriminate.
  assert (H6 : (length [65; 66] <= UNART_TX_FIFO_SIZE)%nat)
    by (apply Nat.leb_le; vm_compute; reflexivity).
  assert (H7 : Forall is_u8 [65; 66])
    by (apply forallb_is_u8; vm_compute; reflexivity).
  assert (H8 : (10 * length [65; 66] <= length latencies_twenty)%nat)
    by (apply Nat.leb_le; vm_compute; reflexivity).
  assert (H9 : Forall (fun late => 0 <= late < tx_period tx_configured)
                      latencies_twenty).
  { apply Forall_forall. intros x Hx. apply repeat_spec in Hx. subst x.
    vm_compute. split; [discriminate | reflexivity]. }
  split; [exact H1 |]. split; [exact H2 |]. split; [exact H3 |].
  split; [exact H4 |]. split; [exact H5 |]. split; [exact H6 |].
  split; [exact H7 |]. split; [exact H8 |]. split; [exact H9 |].
  destruct (tx_back_to_back params_default 1000 tx_configured [65; 66]
              latencies_twenty H1 H2 H3 H4 H5 H6 H7 H8 H9)
    as (_ & _ & Hg & Ha & _).
  split; [| exact Ha]. rewrite Hg. vm_compute. reflexivity.
Defined.

(** X2.  With the diagnostic mode off, a write returns
    min(count, write_room) and appends exactly that prefix of the buffer
    to the queue.  On an active transmitter nothing else changes.  On an
    idle one the oldest queued byte (if any) becomes [payload],
    [bit_index] is -1 and the timer is armed for now + period; a write
    that leaves the queue empty arms nothing. *)
Theorem tx_write_accepts_prefix p now t buf :
  rx_debug p = false ->
  let n := Nat.min (length buf) (unart_tx_write_room t) in
  let queued := kfifo_data (tx_fifo t) ++ firstn n buf in
  let t' := snd (unart_tx_write p now t buf) in
  fst (unart_tx_write p now t buf) = Z.of_nat n
  /\ tx_gpio t' = tx_gpio t /\ tx_period t' = tx_period t
  /\ wakeup_work t' = wakeup_work t
  /\ kfifo_size (tx_fifo t') = kfifo_size (tx_fifo t)
  /\ if hrtimer_active (tx_timer t) || Nat.eqb (length queued) 0
     then kfifo_data (tx_fifo t') = queued
          /\ tx_timer t' = tx_timer t
          /\ tx_bit_index t' = tx_bit_index t
          /\ tx_payload t' = tx_payload t
     else tx_payload t' :: kfifo_data (tx_fifo t') = queued
          /\ tx_timer t' = mk_hrtimer true (now + tx_period t)
          /\ tx_bit_index t' = -1.
Proof.
  intros Hdbg. cbv zeta. rewrite (tx_write_cases p now t buf Hdbg). cbv zeta.
  cbn [fst snd].
  destruct (hrtimer_active (tx_timer t)); cbn [orb].
  - repeat split.
  - destruct (kfifo_data (tx_fifo t)
              ++ firstn (Nat.min (length buf) (unart_tx_write_room t)) buf)
      as [| v rest]; cbn; repeat split.
Qed.

Lemma tx_write_accepts_prefix_witness :
  rx_debug params_default = false
  /\ fst (unart_tx_write params_default 0 tx_configured [1; 2; 3]) = 3
  /\ tx_payload (snd (unart_tx_write params_default 0 tx_configured [1; 2; 3])) = 1
  /\ kfifo_data (tx_fifo (snd (unart_tx_write params_default 0 tx_configured
                                 [1; 2; 3]))) = [2; 3].
Proof.
  assert (H : rx_debug params_default = false) by reflexivity.
  split; [exact H |].
  pose proof (tx_write_accepts_prefix params_default 0 tx_configured [1; 2; 3] H)
    as Hw. cbv zeta in Hw. destruct Hw as (Hret & _ & _ & _ & _ & Hcase).
  split; [rewrite Hret; vm_compute; reflexivity |].
  assert (E : hrtimer_active (tx_timer tx_configured)
              || Nat.eqb (length (kfifo_data (tx_fifo tx_configured)
                   ++ firstn (Nat.min (length [1; 2; 3])
                                (unart_tx_write_room tx_configured)) [1; 2; 3])) 0
              = false) by (vm_compute; reflexivity).
  rewrite E in Hcase. destruct Hcase as (Hq & _ & _).
  assert (Eq : kfifo_data (tx_fifo tx_configured)
               ++ firstn (Nat.min (length [1; 2; 3])
                            (unart_tx_write_room tx_configured)) [1; 2; 3]
               = [1; 2; 3]) by (vm_compute; reflexivity).
  rewrite Eq in Hq.
  split; [exact (f_equal (hd 0) Hq) | exact (f_equal (@tl Z) Hq)].
Defined.

(** X3.  A write never disturbs a frame in flight: while the TX timer is
    active, whatever the diagnostic flag and the buffer, the line log, the
    timer and its expiry, [bit_index] and [payload] are as before. *)
Theorem tx_write_keeps_frame_in_flight p now t buf :
  hrtimer_active (tx_timer t) = true ->
  let t' := snd (unart_tx_write p now t buf) in
  tx_gpio t' = tx_gpio t /\ tx_timer t' = tx_timer t
  /\ tx_period t' = tx_period t
  /\ tx_bit_index t' = tx_bit_index t /\ tx_payload t' = tx_payload t.
Proof.
  intros Hact. cbv zeta. destruct (rx_debug p) eqn:Hdbg.
  - unfold unart_tx_write. rewrite Hdbg. repeat split.
  - rewrite (tx_write_cases p now t buf Hdbg). cbv zeta. rewrite Hact.
    repeat split.
Qed.

Lemma tx_write_keeps_frame_in_flight_witness :
  let t := snd (unart_tx_write params_default 0 tx_configured [65]) in
  hrtimer_active (tx_timer t) = true
  /\ tx_payload (snd (unart_tx_write params_default 5 t [66; 67])) = 65
  /\ tx_timer (snd (unart_tx_write params_default 5 t [66; 67])) = tx_timer t.
Proof.
  cbv zeta.
  assert (H : hrtimer_active
                (tx_timer (snd (unart_tx_write params_default 0 tx_configured [65])))
              = true) by (vm_compute; reflexivity).
  split; [exact H |].
  destruct (tx_write_keeps_frame_in_flight params_default 5 _ [66; 67] H)
    as (_ & Ht & _ & _ & Hp).
  split; [rewrite Hp; vm_compute; reflexivity | exact Ht].
Defined.







(** * Further properties of the receiver *)

(** A frame after an accepted edge. *)
Lemma rx_receive_frame p fr u b :
  rx_idle (rx u) -> hrtimer_active (rx_timer (rx u)) = false ->
  is_u8 b -> frame_carries fr b ->
  rx_view_of (rx_receive p fr u)
  = mk_rx_view (-1) b (snd (kfifo_put (rx_fifo (rx u)) b)) (mk_work true) false.
Proof.
  intros Hidle Hact Hb Hfr. unfold rx_receive, frame_carries, tx_frame in *.
  destruct (rx_irq_accepted p (fst fr) u Hidle Hact) as [Hv _].
  apply rx_view_inv in Hv. destruct Hv as (Hi & Hpl & Hf & _ & _).
  rewrite (rx_drive_frame p _ (snd fr) (data_bits b) 1 Hi Hfr eq_refl).
  cbv zeta. rewrite Hpl, Hf.
  rewrite (rx_shift_in_data_bits b 0 Hb) by (unfold is_u8, u8_modulus; lia).
  reflexivity.
Qed.

Lemma kfifo_put_data f b :
  kfifo_wf f ->
  snd (kfifo_put f b)
  = mk_kfifo (kfifo_size f) (kfifo_data f ++ firstn (kfifo_avail f) [b]).
Proof.
  unfold kfifo_wf, kfifo_put, kfifo_is_full, kfifo_avail, kfifo_len. intros Hwf.
  destruct (Nat.leb_spec (kfifo_size f) (length (kfifo_data f))) as [Hfull | Hroom].
  - replace (kfifo_size f - length (kfifo_data f))%nat with 0%nat by lia.
    cbn. rewrite app_nil_r. destruct f. reflexivity.
  - destruct (kfifo_size f - length (kfifo_data f))%nat eqn:E; [lia |].
    cbn. rewrite firstn_nil. reflexivity.
Qed.

Lemma firstn_cons_split (a : nat) (b : Z) bs :
  firstn a (b :: bs)
  = firstn a [b] ++ firstn (a - length (firstn a [b])) bs.
Proof.
  destruct a as [| a]; [reflexivity |].
  cbn. rewrite firstn_nil. cbn. rewrite Nat.sub_0_r. reflexivity.
Qed.

(** Any number of frames, one after the other. *)
Lemma rx_receive_all_view p : forall frames bs u,
  Forall2 frame_carries frames bs -> Forall is_u8 bs ->
  rx_idle (rx u) -> hrtimer_active (rx_timer (rx u)) = false ->
  kfifo_wf (rx_fifo (rx u)) ->
  let u' := rx_receive_all p frames u in
  rx_idle (rx u')
  /\ hrtimer_active (rx_timer (rx u')) = false
  /\ rx_fifo (rx u')
     = mk_kfifo (kfifo_size (rx_fifo (rx u)))
         (kfifo_data (rx_fifo (rx u)) ++ firstn (kfifo_avail (rx_fifo (rx u))) bs)
  /\ (bs <> [] -> push_work (rx u') = mk_work true
                  /\ rx_payload (rx u') = last bs 0).
Proof.
  induction frames as [| fr frames IH]; intros bs u Hfr Hbs Hidle Hact Hwf;
    inversion Hfr as [| fr' b frames' bs' Hc Hrest]; subst; cbv zeta.
  - cbn [rx_receive_all fold_left]. rewrite firstn_nil, app_nil_r.
    split; [exact Hidle |]. split; [exact Hact |]. split.
    + destruct (rx_fifo (rx u)). reflexivity.
    + intros Hne. contradiction.
  - apply Forall_cons_iff in Hbs. destruct Hbs as [Hb Hbs].
    pose proof (rx_receive_frame p fr u b Hidle Hact Hb Hc) as Hv.
    apply rx_view_inv in Hv. destruct Hv as (Hi1 & Hpl1 & Hf1 & Hw1 & Ha1).
    rewrite (kfifo_put_data _ b Hwf) in Hf1.
    assert (Hwf1 : kfifo_wf (rx_fifo (rx (rx_receive p fr u)))).
    { rewrite Hf1. unfold kfifo_wf, kfifo_avail, kfifo_len in Hwf |- *.
      cbn [kfifo_data kfifo_size]. rewrite length_app, length_firstn.
      cbn [length]. lia. }
    specialize (IH bs' (rx_receive p fr u) Hrest Hbs Hi1 Ha1 Hwf1).
    cbv zeta in IH. destruct IH as (IHi & IHa & IHf & IHw).
    change (rx_receive_all p (fr :: frames) u)
      with (rx_receive_all p frames (rx_receive p fr u)).
    split; [exact IHi |]. split; [exact IHa |]. split.
    + rewrite IHf, Hf1. cbn [kfifo_size kfifo_data]. f_equal.
      rewrite <- app_assoc. f_equal.
      rewrite (firstn_cons_split (kfifo_avail (rx_fifo (rx u))) b bs'). f_equal.
      f_equal. unfold kfifo_avail, kfifo_len. cbn [kfifo_size kfifo_data].
      rewrite length_app. lia.
    + intros _. destruct bs' as [| b' bs''].
      * inversion Hrest as [Hnil |]. unfold rx_receive_all.
        cbn [fold_left last]. split; assumption.
      * destruct IHw as [IHw IHp]; [discriminate |].
        split; [exact IHw |]. rewrite IHp. reflexivity.
Qed.

(** ** Extra properties: the receiver *)

Lemma rx_push_work_all u :
  kfifo_wf (rx_fifo (rx u)) ->
  kfifo_size (rx_fifo (rx u)) = UNART_RX_FIFO_SIZE ->
  fst (unart_rx_push_work u) = kfifo_data (rx_fifo (rx u))
  /\ kfifo_data (rx_fifo (rx (snd (unart_rx_push_work u)))) = [].
Proof.
  unfold kfifo_wf, kfifo_len, unart_rx_push_work, kfifo_out. intros Hwf Hsz.
  rewrite Hsz in Hwf. cbn [fst snd rx set_rx rx_fifo rx_with_fifo kfifo_data].
  split; [apply firstn_all2 | apply skipn_all2]; exact Hwf.
Qed.

(** X6.  Receiving frames one after the other, then delivering.  From
    an idle receiver, after well-formed frames of the bytes [bs], one
    delivery hands over the bytes that were already queued followed by
    the first bytes of [bs] that fit into the 32-byte queue, in order of
    arrival; bytes arriving while the queue is full are dropped, never
    overwriting older ones.  The receiver is idle again and the queue
    empty. *)
Theorem rx_receive_then_deliver p frames bs u :
  Forall2 frame_carries frames bs -> Forall is_u8 bs ->
  rx_idle (rx u) -> hrtimer_active (rx_timer (rx u)) = false ->
  kfifo_wf (rx_fifo (rx u)) ->
  kfifo_size (rx_fifo (rx u)) = UNART_RX_FIFO_SIZE ->
  let u' := rx_receive_all p frames u in
  fst (unart_rx_push_work u')
  = kfifo_data (rx_fifo (rx u)) ++ firstn (kfifo_avail (rx_fifo (rx u))) bs
  /\ kfifo_data (rx_fifo (rx (snd (unart_rx_push_work u')))) = []
  /\ rx_idle (rx u') /\ hrtimer_active (rx_timer (rx u')) = false.
Proof.
  intros Hfr Hbs Hidle Hact Hwf Hsz. cbv zeta.
  destruct (rx_receive_all_view p frames bs u Hfr Hbs Hidle Hact Hwf)
    as (Hi & Ha & Hf & _).
  assert (Hwf' : kfifo_wf (rx_fifo (rx (rx_receive_all p frames u)))).
  { rewrite Hf. unfold kfifo_wf, kfifo_avail, kfifo_len in Hwf |- *.
    cbn [kfifo_data kfifo_size]. rewrite length_app, length_firstn. lia. }
  assert (Hsz' : kfifo_size (rx_fifo (rx (rx_receive_all p frames u)))
                 = UNART_RX_FIFO_SIZE) by (rewrite Hf; exact Hsz).
  destruct (rx_push_work_all _ Hwf' Hsz') as [Hout Hempty].
  rewrite Hout, Hf. auto.
Qed.

Lemma rx_receive_then_deliver_witness :
  let frames := [frame_at 0 65; frame_at 2000000 66] in
  Forall2 frame_carries frames [65; 66] /\ Forall is_u8 [65; 66]
  /\ rx_idle (rx unart_fresh)
  /\ hrtimer_active (rx_timer (rx unart_fresh)) = false
  /\ kfifo_wf (rx_fifo (rx unart_fresh))
  /\ kfifo_size (rx_fifo (rx unart_fresh)) = UNART_RX_FIFO_SIZE
  /\ fst (unart_rx_push_work (rx_receive_all params_default frames unart_fresh))
     = [65; 66].
Proof.
  cbv zeta.
  assert (H1 : Forall2 frame_carries [frame_at 0 65; frame_at 2000000 66] [65; 66])
    by (repeat constructor).
  assert (H2 : Forall is_u8 [65; 66])
    by (apply forallb_is_u8; vm_compute; reflexivity).
  assert (H3 : rx_idle (rx unart_fresh)) by reflexivity.
  assert (H4 : hrtimer_active (rx_timer (rx unart_fresh)) = false) by reflexivity.
  assert (H5 : kfifo_wf (rx_fifo (rx unart_fresh)))
    by (apply Nat.leb_le; vm_compute; reflexivity).
  assert (H6 : kfifo_size (rx_fifo (rx unart_fresh)) = UNART_RX_FIFO_SIZE)
    by reflexivity.
  split; [exact H1 |]. split; [exact H2 |]. split; [exact H3 |].
  split; [exact H4 |]. split; [exact H5 |]. split; [exact H6 |].
  destruct (rx_receive_then_deliver params_default _ [65; 66] unart_fresh
              H1 H2 H3 H4 H5 H6) as (Hd & _).
  rewrite Hd. vm_compute. reflexivity.
Defined.

(** X7.  Outside the diagnostic mode the receiver never drives the TX
    line: the edge handler and the timer callback leave the whole
    transmitter and [debug_toggle] as they were. *)
Theorem rx_leaves_tx_alone p now bit u :
  rx_debug p = false ->
  tx (unart_rx_irq_handler p now u) = tx u
  /\ debug_toggle (rx (unart_rx_irq_handler p now u)) = debug_toggle (rx u)
  /\ tx (unart_rx_timer_fire p now bit u) = tx u
  /\ debug_toggle (rx (unart_rx_timer_fire p now bit u)) = debug_toggle (rx u).
Proof.
  intros Hdbg.
  unfold unart_rx_irq_handler, unart_rx_timer_fire, unart_rx_timer_callback,
    rx_rearm, set_rx.
  rewrite Hdbg.
  destruct (negb (rx_bit_index (rx u) =? -1) || hrtimer_active (rx_timer (rx u)));
    (destruct (rx_bit_index (rx u) =? -1);
     [destruct (bit =? 0) | destruct (rx_bit_index (rx u) <? 8);
                            [| destruct (bit =? 1)]]);
    cbn; repeat split.
Qed.

Lemma rx_leaves_tx_alone_witness :
  rx_debug params_default = false
  /\ tx (unart_rx_irq_handler params_default 0 unart_fresh) = tx unart_fresh
  /\ tx (unart_rx_timer_fire params_default 31249 0 run_edge) = tx run_edge.
Proof.
  assert (H : rx_debug params_default = false) by reflexivity.
  split; [exact H |].
  split.
  - exact (proj1 (rx_leaves_tx_alone params_default 0 0 unart_fresh H)).
  - exact (proj1 (proj2 (proj2
             (rx_leaves_tx_alone params_default 31249 0 run_edge H)))).
Defined.

(** ** Extra properties: transmitter and receiver together *)

Lemma chunks_frames : forall bs fuel,
  (length bs <= fuel)%nat ->
  chunks fuel 10 (concat (map tx_frame bs)) = map tx_frame bs.
Proof.
  induction bs as [| b bs IH]; intros fuel Hfuel.
  - destruct fuel; reflexivity.
  - destruct fuel as [| fuel]; [cbn in Hfuel; lia |].
    cbn [map concat]. cbn [chunks].
    assert (Hcons : exists x l, tx_frame b ++ concat (map tx_frame bs) = x :: l)
      by (eexists; eexists; reflexivity).
    destruct Hcons as (x & l & Hcons). rewrite Hcons, <- Hcons.
    rewrite firstn_app, skipn_app, tx_frame_length.
    change (10 - 10)%nat with 0%nat.
    rewrite firstn_0, skipn_0, app_nil_r.
    rewrite (firstn_all2 (n := 10) (tx_frame b)) by (rewrite tx_frame_length; lia).
    rewrite (skipn_all2 (n := 10) (tx_frame b)) by (rewrite tx_frame_length; lia).
    cbn [app]. f_equal. apply IH. cbn in Hfuel. lia.
Qed.

Lemma line_frames_concat bs :
  line_frames (concat (map tx_frame bs)) = map tx_frame bs.
Proof.
  unfold line_frames. apply chunks_frames.
  induction bs as [| b bs IH]; [cbn; lia |].
  cbn [map concat length]. rewrite length_app, tx_frame_length. lia.
Qed.

Lemma gpio_since_app g x : gpio_since g (g ++ x) = x.
Proof.
  unfold gpio_since. rewrite skipn_app, skipn_all, Nat.sub_diag. reflexivity.
Qed.

Lemma frames_carry_line frames bs :
  frames_sample_line frames (concat (map tx_frame bs)) ->
  Forall2 frame_carries frames bs.
Proof.
  unfold frames_sample_line. rewrite line_frames_concat.
  revert bs. induction frames as [| fr frames IH]; intros [| b bs] H;
    try discriminate; constructor.
  - injection H as H _. exact H.
  - apply IH. injection H as _ H. exact H.
Qed.

(** X8.  Round trip through a looped-back line.  Bytes written to an
    idle transmitter are driven onto the line; a receiver that starts
    idle with an empty queue and samples that line, one frame per falling
    edge, delivers exactly the bytes written, in order, up to the 32 its
    queue holds between deliveries. *)
Theorem loopback_round_trip p now t u buf lats frames :
  rx_debug p = false ->
  tx_fifo t = kfifo_alloc UNART_TX_FIFO_SIZE ->
  hrtimer_active (tx_timer t) = false ->
  hrtimer_resolution <= tx_period t ->
  buf <> [] -> (length buf <= UNART_TX_FIFO_SIZE)%nat ->
  Forall is_u8 buf ->
  (10 * length buf <= length lats)%nat ->
  Forall (fun late => 0 <= late < tx_period t) lats ->
  rx_idle (rx u) -> hrtimer_active (rx_timer (rx u)) = false ->
  rx_fifo (rx u) = kfifo_alloc UNART_RX_FIFO_SIZE ->
  frames_sample_line frames
    (gpio_since (tx_gpio t)
       (tx_gpio (snd (tx_drive lats (snd (unart_tx_write p now t buf)))))) ->
  fst (unart_rx_push_work (rx_receive_all p frames u))
  = firstn UNART_RX_FIFO_SIZE buf.
Proof.
  intros Hdbg Hfifo Hact Hres Hne Hlen Hu8 Hlats Hlate Hidle Hract Hrfifo Hline.
  destruct (tx_write_then_drive p now t buf lats Hdbg Hfifo Hact Hres Hne Hlen
              Hu8 Hlats Hlate) as (_ & _ & Hg & _).
  rewrite Hg, gpio_since_app in Hline. apply frames_carry_line in Hline.
  assert (Hwf : kfifo_wf (rx_fifo (rx u)))
    by (rewrite Hrfifo; unfold kfifo_wf, kfifo_len; cbn; lia).
  destruct (rx_receive_all_view p frames buf u Hline Hu8 Hidle Hract Hwf)
    as (_ & _ & Hf & _).
  assert (Hwf' : kfifo_wf (rx_fifo (rx (rx_receive_all p frames u)))).
  { rewrite Hf. unfold kfifo_wf, kfifo_avail, kfifo_len in Hwf |- *.
    cbn [kfifo_data kfifo_size]. rewrite length_app, length_firstn. lia. }
  assert (Hsz' : kfifo_size (rx_fifo (rx (rx_receive_all p frames u)))
                 = UNART_RX_FIFO_SIZE) by (rewrite Hf, Hrfifo; reflexivity).
  destruct (rx_push_work_all _ Hwf' Hsz') as [Hout _].
  rewrite Hout, Hf, Hrfifo. reflexivity.
Qed.

Lemma loopback_round_trip_witness :
  let frames := [frame_at 1000 65; frame_at 1100000 66] in
  rx_debug params_default = false
  /\ tx_fifo tx_configured = kfifo_alloc UNART_TX_FIFO_SIZE
  /\ hrtimer_active (tx_timer tx_configured) = false
  /\ hrtimer_resolution <= tx_period tx_configured
  /\ [65; 66] <> []
  /\ (length [65; 66] <= UNART_TX_FIFO_SIZE)%nat
  /\ Forall is_u8 [65; 66]
  /\ (10 * length [65; 66] <= length latencies_twenty)%nat
  /\ Forall (fun late => 0 <= late < tx_period tx_configured) latencies_twenty
  /\ rx_idle (rx unart_fresh)
  /\ hrtimer_active (rx_timer (rx unart_fresh)) = false
  /\ rx_fifo (rx unart_fresh) = kfifo_alloc UNART_RX_FIFO_SIZE
  /\ frames_sample_line frames
       (gpio_since (tx_gpio tx_configured)
          (tx_gpio (snd (tx_drive latencies_twenty
                           (snd (unart_tx_write params_default 0 tx_configured
                                   [65; 66]))))))
  /\ fst (unart_rx_push_work (rx_receive_all params_default frames unart_fresh))
     = [65; 66].
Proof.
  cbv zeta.
  assert (H1 : rx_debug params_default = false) by reflexivity.
  assert (H2 : tx_fifo tx_configured = kfifo_alloc UNART_TX_FIFO_SIZE)
    by (vm_compute; reflexivity).
  assert (H3 : hrtimer_active (tx_timer tx_configured) = false)
    by (vm_compute; reflexivity).
  assert (H4 : hrtimer_resolution <= tx_period tx_configured)
    by (vm_compute; discriminate).
  assert (H5 : [65; 66] <> []) by discriminate.
  assert (H6 : (length [65; 66] <= UNART_TX_FIFO_SIZE)%nat)
    by (apply Nat.leb_le; vm_compute; reflexivity).
  assert (H7 : Forall is_u8 [65; 66])
    by (apply forallb_is_u8; vm_compute; reflexivity).
  assert (H8 : (10 * length [65; 66] <= length latencies_twenty)%nat)
    by (apply Nat.leb_le; vm_compute; reflexivity).
  assert (H9 : Forall (fun late => 0 <= late < tx_period tx_configured)
                      latencies_twenty).
  { apply Forall_forall. intros x Hx. apply repeat_spec in Hx. subst x.
    vm_compute. split; [discriminate | reflexivity]. }
  assert (H10 : rx_idle (rx unart_fresh)) by reflexivity.
  assert (H11 : hrtimer_active (rx_timer (rx unart_fresh)) = false) by reflexivity.
  assert (H12 : rx_fifo (rx unart_fresh) = kfifo_alloc UNART_RX_FIFO_SIZE)
    by reflexivity.
  assert (H13 : frames_sample_line [frame_at 1000 65; frame_at 1100000 66]
            (gpio_since (tx_gpio tx_configured)
               (tx_gpio (snd (tx_drive latencies_twenty
                  (snd (unart_tx_write params_default 0 tx_configured
                          [65; 66])))))))
    by (vm_compute; reflexivity).
  split; [exact H1 |]. split; [exact H2 |]. split; [exact H3 |].
  split; [exact H4 |]. split; [exact H5 |]. split; [exact H6 |].
  split; [exact H7 |]. split; [exact H8 |]. split; [exact H9 |].
  split; [exact H10 |]. split; [exact H11 |]. split; [exact H12 |].
  split; [exact H13 |].
  exact (loopback_round_trip params_default 0 tx_configured unart_fresh [65; 66]
           latencies_twenty _ H1 H2 H3 H4 H5 H6 H7 H8 H9 H10 H11 H12 H13).
Defined.

(** ** Extra properties: timing *)

(** Forwarding a timer that has expired puts its expiry strictly after
    [now], at most one interval after it, a whole number of intervals
    from where it was. *)
Lemma hrtimer_forward_after_now t now interval :
  hrtimer_expires t <= now ->
  let step := Z.max interval hrtimer_resolution in
  let t' := hrtimer_forward t now interval in
  hrtimer_active t' = hrtimer_active t
  /\ now < hrtimer_expires t' <= now + step
  /\ exists k, 1 <= k /\ hrtimer_expires t' = hrtimer_expires t + k * step.
Proof.
  intros He. cbv zeta. unfold hrtimer_forward, hrtimer_resolution.
  assert (E1 : (now - hrtimer_expires t <? 0) = false) by (apply Z.ltb_ge; lia).
  rewrite E1. cbv zeta.
  assert (Estep : (if interval <? 1 then 1 else interval) = Z.max interval 1).
  { destruct (Z.ltb_spec interval 1); lia. }
  rewrite Estep. set (step := Z.max interval 1).
  assert (Hstep : 1 <= step) by (subst step; lia).
  set (delta := now - hrtimer_expires t) in *.
  destruct (Z.leb_spec step delta) as [Hover | Hin].
  - pose proof (Z.div_mod delta step ltac:(lia)) as Hdm.
    pose proof (Z.mod_pos_bound delta step ltac:(lia)) as Hmod.
    assert (Hq : 1 <= delta / step).
    { apply Z.div_le_lower_bound; lia. }
    assert (E2 : (now <? hrtimer_expires t + step * (delta / step)) = false)
      by (apply Z.ltb_ge; lia).
    rewrite E2. cbn [hrtimer_active hrtimer_expires].
    split; [reflexivity |]. split; [lia |].
    exists (delta / step + 1). split; [lia | lia].
  - cbn [hrtimer_active hrtimer_expires].
    split; [reflexivity |]. split; [lia |].
    exists 1. split; lia.
Qed.

(** The RX timer after one expiry. *)
Lemma rx_fire_timer p now bit u :
  let restart := if rx_bit_index (rx u) =? -1 then bit =? 0
                 else rx_bit_index (rx u) <? 8 in
  rx_timer (rx (unart_rx_timer_fire p now bit u))
  = (if restart
     then mk_hrtimer true
            (hrtimer_expires
               (hrtimer_forward (rx_timer (rx u)) now (rx_period (rx u))))
     else mk_hrtimer false (hrtimer_expires (rx_timer (rx u))))
  /\ rx_period (rx (unart_rx_timer_fire p now bit u)) = rx_period (rx u)
  /\ skew (rx (unart_rx_timer_fire p now bit u)) = skew (rx u).
Proof.
  cbv zeta. rx_unfold.
  destruct (rx_debug p); cbn;
    (destruct (rx_bit_index (rx u) =? -1);
     [destruct (bit =? 0) | destruct (rx_bit_index (rx u) <? 8);
                            [| destruct (bit =? 1)]]);
    cbn; repeat split.
Qed.

(** X9.  A timer callback that re-arms never re-arms in the past.  If
    the RX or the TX callback runs at [now], not before the expiry, and
    leaves the timer queued, the new expiry is strictly after [now], at
    most one period (at least the timer resolution) after it, and a whole
    number of periods after the old expiry: late service never shifts the
    bit grid. *)
Theorem timer_rearm_after_now p now bit u t :
  (hrtimer_expires (rx_timer (rx u)) <= now ->
   hrtimer_active (rx_timer (rx (unart_rx_timer_fire p now bit u))) = true ->
   let step := Z.max (rx_period (rx u)) hrtimer_resolution in
   let e' := hrtimer_expires (rx_timer (rx (unart_rx_timer_fire p now bit u))) in
   now < e' <= now + step
   /\ exists k, 1 <= k /\ e' = hrtimer_expires (rx_timer (rx u)) + k * step)
  /\ (hrtimer_expires (tx_timer t) <= now ->
      hrtimer_active (tx_timer (unart_tx_timer_fire now t)) = true ->
      let step := Z.max (tx_period t) hrtimer_resolution in
      let e' := hrtimer_expires (tx_timer (unart_tx_timer_fire now t)) in
      now < e' <= now + step
      /\ exists k, 1 <= k /\ e' = hrtimer_expires (tx_timer t) + k * step).
Proof.
  split.
  - intros He Hact. cbv zeta.
    destruct (rx_fire_timer p now bit u) as (Ht & _). cbv zeta in Ht.
    rewrite Ht in Hact |- *.
    destruct (if rx_bit_index (rx u) =? -1 then bit =? 0
              else rx_bit_index (rx u) <? 8); [| discriminate Hact].
    cbn [hrtimer_expires].
    destruct (hrtimer_forward_after_now (rx_timer (rx u)) now (rx_period (rx u)) He)
      as (_ & Hb & Hk). auto.
  - intros He Hact. cbv zeta. rewrite tx_fire_cases in Hact |- *.
    cbv zeta in Hact |- *.
    destruct (hrtimer_forward_after_now (tx_timer t) now (tx_period t) He)
      as (_ & Hb & Hk).
    destruct (tx_bit_index t =? -1); [cbn; auto |].
    destruct (tx_bit_index t <? 8); [cbn; auto |].
    destruct (kfifo_data (tx_fifo t)); [discriminate Hact | cbn; auto].
Qed.

Lemma timer_rearm_after_now_witness :
  hrtimer_expires (rx_timer (rx run_edge)) <= 500000
  /\ hrtimer_active
       (rx_timer (rx (unart_rx_timer_fire params_default 500000 0 run_edge)))
     = true
  /\ 500000 < hrtimer_expires
                (rx_timer (rx (unart_rx_timer_fire params_default 500000 0
                                 run_edge)))
     <= 500000 + 104166.
Proof.
  assert (H1 : hrtimer_expires (rx_timer (rx run_edge)) <= 500000)
    by (vm_compute; discriminate).
  assert (H2 : hrtimer_active
                 (rx_timer (rx (unart_rx_timer_fire params_default 500000 0
                                  run_edge))) = true)
    by (vm_compute; reflexivity).
  split; [exact H1 |]. split; [exact H2 |].
  destruct (timer_rearm_after_now params_default 500000 0 run_edge tx_fresh)
    as [Hrx _].
  destruct (Hrx H1 H2) as [Hb _]. cbv zeta in Hb.
  replace (Z.max (rx_period (rx run_edge)) hrtimer_resolution) with 104166 in Hb
    by (vm_compute; reflexivity).
  exact Hb.
Defined.

(** One on-time expiry of the RX timer. *)
Lemma rx_fire_on_time p late bit u e P :
  rx_timer (rx u) = mk_hrtimer true e -> rx_period (rx u) = P ->
  hrtimer_resolution <= P -> 0 <= late < P ->
  let restart := if rx_bit_index (rx u) =? -1 then bit =? 0
                 else rx_bit_index (rx u) <? 8 in
  rx_timer (rx (unart_rx_timer_fire p (e + late) bit u))
  = (if restart then mk_hrtimer true (e + P) else mk_hrtimer false e)
  /\ rx_period (rx (unart_rx_timer_fire p (e + late) bit u)) = P.
Proof.
  intros Ht HP Hres Hlate. cbv zeta.
  destruct (rx_fire_timer p (e + late) bit u) as (Hfire & Hper & _).
  cbv zeta in Hfire. rewrite Hfire, Hper, Ht, HP.
  rewrite hrtimer_forward_on_time by (cbn; lia). cbn [hrtimer_expires].
  split; reflexivity.
Qed.

Lemma rx_drive_timed_cons p late bit rest u :
  hrtimer_active (rx_timer (rx u)) = true ->
  rx_drive_timed p ((late, bit) :: rest) u
  = let u' := unart_rx_timer_fire p (hrtimer_expires (rx_timer (rx u)) + late)
                                  bit u in
    (hrtimer_expires (rx_timer (rx u)) :: fst (rx_drive_timed p rest u'),
     snd (rx_drive_timed p rest u')).
Proof.
  intros Hact. cbn [rx_drive_timed]. rewrite Hact. cbv zeta.
  destruct (rx_drive_timed p rest _). reflexivity.
Qed.

Lemma rx_drive_timed_stopped p samples u :
  hrtimer_active (rx_timer (rx u)) = false ->
  rx_drive_timed p samples u = ([], u).
Proof.
  intros H. destruct samples as [| [late bit] rest]; cbn [rx_drive_timed];
    [| rewrite H]; reflexivity.
Qed.

(** The data bits, served on time. *)
Lemma rx_drive_timed_data p P : forall samples rest u e,
  rx_timer (rx u) = mk_hrtimer true e -> rx_period (rx u) = P ->
  hrtimer_resolution <= P ->
  Forall (fun s => 0 <= fst s < P) samples ->
  0 <= rx_bit_index (rx u) ->
  rx_bit_index (rx u) + Z.of_nat (length samples) <= 8 ->
  exists u',
    rx_drive_timed p (samples ++ rest) u
    = (expiries e P (length samples) ++ fst (rx_drive_timed p rest u'),
       snd (rx_drive_timed p rest u'))
    /\ rx_timer (rx u') = mk_hrtimer true (e + Z.of_nat (length samples) * P)
    /\ rx_period (rx u') = P
    /\ rx_view_of u'
       = mk_rx_view (rx_bit_index (rx u) + Z.of_nat (length samples))
           (fold_left (fun acc bit => rx_shift_in bit acc) (map snd samples)
                      (rx_payload (rx u)))
           (rx_fifo (rx u)) (push_work (rx u)) true.
Proof.
  induction samples as [| [late bit] samples IH];
    intros rest u e Ht HP Hres Hl Hlo Hhi.
  - exists u. cbn [length app expiries seq map fold_left].
    change (Z.of_nat 0) with 0. rewrite Z.mul_0_l, !Z.add_0_r.
    split; [destruct (rx_drive_timed p rest u); reflexivity |].
    split; [exact Ht |]. split; [exact HP |].
    unfold rx_view_of. rewrite Ht. reflexivity.
  - apply Forall_cons_iff in Hl. destruct Hl as [Hlate Hl]. cbn [fst] in Hlate.
    cbn [length] in Hhi. rewrite Nat2Z.inj_succ in Hhi.
    pose proof (rx_fire_data p (e + late) bit u ltac:(lia)) as Hv.
    apply rx_view_inv in Hv. destruct Hv as (Hi & Hpl & Hf & Hw & Ha).
    destruct (rx_fire_on_time p late bit u e P Ht HP Hres Hlate) as (Ht1 & HP1).
    cbv zeta in Ht1.
    assert (E1 : (rx_bit_index (rx u) =? -1) = false) by (apply Z.eqb_neq; lia).
    assert (E2 : (rx_bit_index (rx u) <? 8) = true) by (apply Z.ltb_lt; lia).
    rewrite E1, E2 in Ht1.
    destruct (IH rest (unart_rx_timer_fire p (e + late) bit u) (e + P)
                Ht1 HP1 Hres Hl ltac:(lia) ltac:(lia))
      as (u' & Hrun & Ht' & HP' & Hview).
    exists u'. cbn [app length].
    rewrite rx_drive_timed_cons by (rewrite Ht; reflexivity).
    cbv zeta. rewrite Ht. cbn [hrtimer_expires]. rewrite Hrun. cbn [fst snd].
    rewrite expiries_succ. split; [reflexivity |].
    split; [rewrite Ht', Nat2Z.inj_succ; f_equal; lia |].
    split; [exact HP' |].
    rewrite Hview, Hi, Hpl, Hf, Hw. cbn [map fold_left snd].
    rewrite Nat2Z.inj_succ. f_equal. lia.
Qed.

Lemma rx_irq_accepted_timer p now u :
  rx_bit_index (rx u) = -1 -> hrtimer_active (rx_timer (rx u)) = false ->
  rx_timer (rx (unart_rx_irq_handler p now u))
  = mk_hrtimer true (now + skew (rx u))
  /\ rx_period (rx (unart_rx_irq_handler p now u)) = rx_period (rx u).
Proof.
  intros Hi Ha. unfold unart_rx_irq_handler, unart_rx_debug_toggle, set_rx.
  rewrite Hi, Ha. cbn. destruct (rx_debug p); split; reflexivity.
Qed.

(** X10.  Sample points.  After an accepted edge at [t0], with every
    expiry served less than a period late, the line is sampled at the
    expiries t0 + skew, t0 + skew + period, ..., one per bit of the
    frame: a frame with a valid start bit takes exactly ten samples, the
    data bits end in [payload] and a valid stop bit queues the byte; a
    frame whose start-bit sample is not 0 takes just the first sample. *)
Theorem rx_sample_points p t0 u samples start data stop :
  rx_idle (rx u) -> hrtimer_active (rx_timer (rx u)) = false ->
  hrtimer_resolution <= rx_period (rx u) ->
  Forall (fun s => 0 <= fst s < rx_period (rx u)) samples ->
  map snd samples = frame_bits start data stop ->
  length data = 8%nat ->
  let r := rx_drive_timed p samples (unart_rx_irq_handler p t0 u) in
  if start =? 0
  then fst r = expiries (t0 + skew (rx u)) (rx_period (rx u)) 10
       /\ rx_payload (rx (snd r))
          = fold_left (fun acc bit => rx_shift_in bit acc) data 0
       /\ rx_fifo (rx (snd r))
          = (if stop =? 1
             then snd (kfifo_put (rx_fifo (rx u)) (rx_payload (rx (snd r))))
             else rx_fifo (rx u))
       /\ rx_idle (rx (snd r))
       /\ hrtimer_active (rx_timer (rx (snd r))) = false
  else fst r = [t0 + skew (rx u)]
       /\ rx_fifo (rx (snd r)) = rx_fifo (rx u)
       /\ rx_idle (rx (snd r))
       /\ hrtimer_active (rx_timer (rx (snd r))) = false.
Proof.
  intros Hidle Hact Hres Hl Hs Hlen. cbv zeta.
  destruct (frame_bits_split _ _ _ _ Hs) as (l0 & mid & l9 & -> & Hmid).
  apply Forall_cons_iff in Hl. destruct Hl as [Hl0 Hl]. cbn [fst] in Hl0.
  apply Forall_app in Hl. destruct Hl as [Hlmid Hl9].
  apply Forall_cons_iff in Hl9. destruct Hl9 as [Hl9 _]. cbn [fst] in Hl9.
  assert (Hmlen : length mid = 8%nat)
    by (rewrite <- Hlen, <- Hmid, length_map; reflexivity).
  set (P := rx_period (rx u)) in *. set (e := t0 + skew (rx u)).
  set (u0 := unart_rx_irq_handler p t0 u).
  destruct (rx_irq_accepted p t0 u Hidle Hact) as [Hv0 _]. fold u0 in Hv0.
  apply rx_view_inv in Hv0. destruct Hv0 as (Hi0 & Hpl0 & Hf0 & Hw0 & Ha0).
  destruct (rx_irq_accepted_timer p t0 u Hidle Hact) as [Ht0 HP0].
  fold u0 e P in Ht0, HP0.
  rewrite rx_drive_timed_cons by exact Ha0. cbv zeta.
  rewrite Ht0. cbn [hrtimer_expires].
  destruct (rx_fire_on_time p l0 start u0 e P Ht0 HP0 Hres Hl0) as (Ht1 & HP1).
  cbv zeta in Ht1. rewrite Hi0 in Ht1. change (-1 =? -1) with true in Ht1.
  cbv iota in Ht1.
  set (u1 := unart_rx_timer_fire p (e + l0) start u0) in *.
  destruct (Z.eqb_spec start 0) as [-> | Hstart].
  - pose proof (rx_fire_start_valid p (e + l0) u0 Hi0) as Hv1. fold u1 in Hv1.
    apply rx_view_inv in Hv1. destruct Hv1 as (Hi1 & Hpl1 & Hf1 & Hw1 & Ha1).
    destruct (rx_drive_timed_data p P mid [(l9, stop)] u1 (e + P) Ht1 HP1 Hres
                Hlmid ltac:(lia) ltac:(rewrite Hi1, Hmlen; simpl; lia))
      as (u9 & Hrun & Ht9 & HP9 & Hv9).
    rewrite Hrun. cbn [fst snd].
    apply rx_view_inv in Hv9. destruct Hv9 as (Hi9 & Hpl9 & Hf9 & Hw9 & Ha9).
    rewrite Hi1, Hmlen in Hi9. rewrite Hpl1, Hpl0, Hmid in Hpl9.
    rewrite Hf1, Hf0 in Hf9.
    rewrite rx_drive_timed_cons by exact Ha9. cbv zeta.
    rewrite Ht9. cbn [hrtimer_expires fst snd].
    pose proof (rx_fire_stop p (e + P + Z.of_nat (length mid) * P + l9) stop u9
                  ltac:(rewrite Hi9; simpl; lia)) as Hstop.
    set (u10 := unart_rx_timer_fire p _ stop u9) in *.
    assert (Hoff : hrtimer_active (rx_timer (rx u10)) = false).
    { destruct (stop =? 1); apply rx_view_inv in Hstop; tauto. }
    rewrite rx_drive_timed_stopped by exact Hoff. cbn [fst snd].
    split.
    + rewrite Hmlen. unfold expiries. cbn [seq map app].
      repeat (f_equal; try lia).
    + destruct (stop =? 1); apply rx_view_inv in Hstop;
        destruct Hstop as (Hi10 & Hpl10 & Hf10 & _ & _);
        rewrite Hpl10, Hf10, Hpl9, ?Hf9; repeat split; assumption.
  - pose proof (rx_fire_start_invalid p (e + l0) start u0 Hi0 Hstart) as Hv1.
    fold u1 in Hv1.
    apply rx_view_inv in Hv1. destruct Hv1 as (Hi1 & Hpl1 & Hf1 & Hw1 & Ha1).
    rewrite rx_drive_timed_stopped by exact Ha1. cbn [fst snd].
    rewrite Hf1, Hf0. repeat split; assumption.
Qed.

Lemma rx_sample_points_witness :
  let r := rx_drive_timed params_default (timed_frame 65)
             (unart_rx_irq_handler params_default 1000 unart_fresh) in
  rx_idle (rx unart_fresh)
  /\ hrtimer_active (rx_timer (rx unart_fresh)) = false
  /\ hrtimer_resolution <= rx_period (rx unart_fresh)
  /\ Forall (fun s => 0 <= fst s < rx_period (rx unart_fresh)) (timed_frame 65)
  /\ map snd (timed_frame 65) = frame_bits 0 (data_bits 65) 1
  /\ length (data_bits 65) = 8%nat
  /\ fst r = expiries 32249 104166 10
  /\ rx_payload (rx (snd r)) = 65.
Proof.
  cbv zeta.
  assert (H1 : rx_idle (rx unart_fresh)) by reflexivity.
  assert (H2 : hrtimer_active (rx_timer (rx unart_fresh)) = false) by reflexivity.
  assert (H3 : hrtimer_resolution <= rx_period (rx unart_fresh)) by discriminate.
  assert (H4 : Forall (fun s => 0 <= fst s < rx_period (rx unart_fresh))
                      (timed_frame 65))
    by (repeat constructor; discriminate).
  assert (H5 : map snd (timed_frame 65) = frame_bits 0 (data_bits 65) 1)
    by reflexivity.
  assert (H6 : length (data_bits 65) = 8%nat) by reflexivity.
  split; [exact H1 |]. split; [exact H2 |]. split; [exact H3 |].
  split; [exact H4 |]. split; [exact H5 |]. split; [exact H6 |].
  pose proof (rx_sample_points params_default 1000 unart_fresh (timed_frame 65)
                0 (data_bits 65) 1 H1 H2 H3 H4 H5 H6) as H.
  cbv zeta in H. change (0 =? 0) with true in H. cbv iota in H.
  destruct H as (Hd & Hp & _).
  split; [exact Hd |]. rewrite Hp. vm_compute. reflexivity.
Defined.

(** * Properties of the TTY glue *)

Lemma find_zero_from_spec bm : forall n i,
  0 <= i ->
  let r := find_zero_from bm i n in
  i <= r <= i + Z.of_nat n
  /\ (forall j, i <= j < r -> Z.testbit bm j = true)
  /\ (r < i + Z.of_nat n -> Z.testbit bm r = false).
Proof.
  induction n as [| n IH]; intros i Hi; cbv zeta.
  - cbn [find_zero_from]. change (Z.of_nat 0) with 0.
    split; [lia |]. split; [intros j Hj; lia | intros H; lia].
  - cbn [find_zero_from]. rewrite Nat2Z.inj_succ.
    destruct (Z.testbit bm i) eqn:Hbit.
    + specialize (IH (i + 1) ltac:(lia)). cbv zeta in IH.
      destruct IH as (Hr & Hlow & Hfree).
      split; [lia |]. split.
      * intros j Hj. destruct (Z.eq_dec j i) as [-> | Hne]; [exact Hbit |].
        apply Hlow. lia.
      * intros H. apply Hfree. lia.
    + split; [lia |]. split; [intros j Hj; lia | intros _; exact Hbit].
Qed.

(** What an allocation finds, as one disjunction. *)
Lemma find_free_device_index_cases bm :
  (exists i, 0 <= i < 32 /\ Z.testbit bm i = false
             /\ (forall j, 0 <= j < i -> Z.testbit bm j = true)
             /\ find_free_device_index bm = (i, Z.setbit bm i))
  \/ ((forall j, 0 <= j < 32 -> Z.testbit bm j = true)
      /\ find_free_device_index bm = (- EBUSY, bm)).
Proof.
  unfold find_free_device_index, find_first_zero_bit.
  destruct (find_zero_from_spec bm UNART_MAX_TTY_DEVICES 0 ltac:(lia))
    as (Hr & Hlow & Hfree).
  cbv zeta. change (Z.of_nat UNART_MAX_TTY_DEVICES) with 32 in *.
  set (r := find_zero_from bm 0 UNART_MAX_TTY_DEVICES) in *.
  destruct (Z.ltb_spec r 32) as [Hlt | Hge].
  - left. exists r. split; [lia |]. split; [apply Hfree; lia |].
    split; [exact Hlow | reflexivity].
  - right. split; [| reflexivity]. intros j Hj. apply Hlow. lia.
Qed.

(** X11.  Allocation of a device index.  [find_free_device_index]
    returns the lowest index below 32 whose bit is clear and sets exactly
    that bit; when all 32 bits are set it returns -EBUSY and leaves the
    bitmap alone.  It never hands out an index that is in use. *)
Theorem device_index_allocation bm :
  let index := fst (find_free_device_index bm) in
  let bm' := snd (find_free_device_index bm) in
  (0 <= index < 32
   /\ Z.testbit bm index = false
   /\ (forall j, 0 <= j < index -> Z.testbit bm j = true)
   /\ Z.testbit bm' index = true
   /\ (forall k, 0 <= k -> k <> index -> Z.testbit bm' k = Z.testbit bm k))
  \/ (index = - EBUSY /\ bm' = bm
      /\ forall j, 0 <= j < 32 -> Z.testbit bm j = true).
Proof.
  cbv zeta.
  destruct (find_free_device_index_cases bm)
    as [(i & Hi & Hfree & Hlow & ->) | (Hall & ->)]; cbn [fst snd].
  - left. split; [exact Hi |]. split; [exact Hfree |]. split; [exact Hlow |].
    split.
    + rewrite Z.setbit_eqb by lia. rewrite Z.eqb_refl. reflexivity.
    + intros k Hk Hne. rewrite Z.setbit_eqb by lia.
      destruct (Z.eqb_spec i k); [congruence | reflexivity].
  - right. auto.
Qed.

(** X12.  Allocation and release are inverse.  Releasing the index an
    allocation returned restores the bitmap; and after releasing an index
    that was in use, the next allocation succeeds with an index no higher
    than the one released (the same one when all lower ones are in
    use). *)
Theorem device_index_round_trip bm :
  (0 <= fst (find_free_device_index bm) ->
   release_device_index (snd (find_free_device_index bm))
                        (fst (find_free_device_index bm)) = bm)
  /\ (forall i, 0 <= i < 32 -> Z.testbit bm i = true ->
        0 <= fst (find_free_device_index (release_device_index bm i)) <= i
        /\ ((forall j, 0 <= j < i -> Z.testbit bm j = true) ->
            fst (find_free_device_index (release_device_index bm i)) = i)).
Proof.
  split.
  - destruct (find_free_device_index_cases bm)
      as [(i & Hi & Hfree & _ & ->) | (_ & ->)]; cbn [fst snd].
    + intros _. unfold release_device_index. apply Z.bits_inj'. intros n Hn.
      rewrite Z.clearbit_eqb, Z.setbit_eqb by lia.
      destruct (Z.eqb_spec i n) as [-> | Hne]; cbn; [congruence |].
      apply andb_true_r.
    + unfold EBUSY. lia.
  - intros i Hi Hused. unfold release_device_index.
    assert (Hclr : Z.testbit (Z.clearbit bm i) i = false).
    { rewrite Z.clearbit_eqb by lia. rewrite Z.eqb_refl. apply andb_false_r. }
    destruct (find_free_device_index_cases (Z.clearbit bm i))
      as [(k & Hk & Hfree & Hlow & ->) | (Hall & _)]; cbn [fst].
    + assert (Hki : k <= i).
      { destruct (Z_le_gt_dec k i) as [? | Hgt]; [assumption |].
        rewrite (Hlow i) in Hclr by lia. discriminate. }
      split; [lia |]. intros Hbelow.
      destruct (Z.eq_dec k i) as [-> | Hne]; [reflexivity |].
      rewrite Z.clearbit_eqb in Hfree by lia.
      rewrite (Hbelow k) in Hfree by lia.
      destruct (Z.eqb_spec i k); [lia | discriminate].
    + rewrite (Hall i Hi) in Hclr. discriminate.
Qed.

(** X13.  Two allocations in a row never return the same index: the
    second index is strictly higher than the first. *)
Theorem device_index_distinct bm :
  let first := find_free_device_index bm in
  let second := find_free_device_index (snd first) in
  0 <= fst first -> 0 <= fst second -> fst first < fst second.
Proof.
  cbv zeta.
  destruct (find_free_device_index_cases bm)
    as [(i & Hi & Hfree & Hlow & ->) | (_ & ->)]; cbn [fst snd];
    [| unfold EBUSY; lia].
  destruct (find_free_device_index_cases (Z.setbit bm i))
    as [(k & Hk & Hkfree & _ & ->) | (_ & ->)]; cbn [fst];
    [| unfold EBUSY; lia].
  intros _ _. rewrite Z.setbit_eqb in Hkfree by lia.
  apply orb_false_elim in Hkfree. destruct Hkfree as [Hne Hkbit].
  apply Z.eqb_neq in Hne.
  destruct (Z_lt_ge_dec i k) as [? | Hge]; [assumption |].
  rewrite (Hlow k) in Hkbit by lia. discriminate.
Qed.

Lemma device_index_distinct_witness :
  0 <= fst (find_free_device_index 5)
  /\ 0 <= fst (find_free_device_index (snd (find_free_device_index 5)))
  /\ fst (find_free_device_index 5) = 1
  /\ fst (find_free_device_index 5)
     < fst (find_free_device_index (snd (find_free_device_index 5))).
Proof.
  assert (H1 : 0 <= fst (find_free_device_index 5)) by (vm_compute; discriminate).
  assert (H2 : 0 <= fst (find_free_device_index (snd (find_free_device_index 5))))
    by (vm_compute; discriminate).
  split; [exact H1 |]. split; [exact H2 |]. split; [reflexivity |].
  exact (device_index_distinct 5 H1 H2).
Defined.

Lemma device_index_round_trip_witness :
  0 <= fst (find_free_device_index 7)
  /\ release_device_index (snd (find_free_device_index 7))
                          (fst (find_free_device_index 7)) = 7
  /\ fst (find_free_device_index (release_device_index 7 1)) = 1.
Proof.
  assert (H : 0 <= fst (find_free_device_index 7)) by (vm_compute; discriminate).
  destruct (device_index_round_trip 7) as [Hrt Hre].
  split; [exact H |]. split; [exact (Hrt H) |].
  assert (H1 : 0 <= 1 < 32) by (split; [discriminate | reflexivity]).
  assert (H2 : Z.testbit 7 1 = true) by reflexivity.
  destruct (Hre 1 H1 H2) as [_ Hsame]. apply Hsame.
  intros j Hj. assert (j = 0) as -> by lia. reflexivity.
Defined.

Lemma set_baud_rates_ok r t bi bo :
  1 <= bi -> 1 <= bo ->
  unart_rx_set_baud_rate r bi
  = Some (rx_with_skew (rx_with_period r (NSEC_PER_SEC / bi))
            (Z.quot (NSEC_PER_SEC / bi * skew_percent r) 100))
  /\ unart_tx_set_baud_rate t bo = Some (tx_with_period t (NSEC_PER_SEC / bo)).
Proof.
  intros Hi Ho. unfold unart_rx_set_baud_rate, unart_tx_set_baud_rate.
  rewrite !c_div_pos by (unfold NSEC_PER_SEC; lia). split; reflexivity.
Qed.

(** What [unart_tty_device_setup] returns, case by case. *)
Lemma unart_tty_device_setup_cases drv e bm d :
  1 <= c_ispeed drv -> 1 <= c_ospeed drv ->
  let r' := rx_with_skew
              (rx_with_period (rx (dev_unart d)) (NSEC_PER_SEC / c_ispeed drv))
              (Z.quot (NSEC_PER_SEC / c_ispeed drv
                       * skew_percent (rx (dev_unart d))) 100) in
  let t' := tx_with_period (tx (dev_unart d)) (NSEC_PER_SEC / c_ospeed drv) in
  ((forall j, 0 <= j < 32 -> Z.testbit bm j = true)
   /\ unart_tty_device_setup drv e bm d = Some (- EBUSY, bm, d))
  \/ exists i,
       0 <= i < 32 /\ Z.testbit bm i = false
       /\ (forall j, 0 <= j < i -> Z.testbit bm j = true)
       /\ unart_tty_device_setup drv e bm d
          = Some (if negb (tty_register_device_err e =? 0)
                  then (tty_register_device_err e, bm,
                        mk_dev (dev_unart d) i (tty_registered d))
                  else if negb (tty_add_action_err e =? 0)
                  then (tty_add_action_err e, bm, mk_dev (mk_unart r' t') i false)
                  else (0, Z.setbit bm i, mk_dev (mk_unart r' t') i true)).
Proof.
  intros Hi Ho. cbv zeta. unfold unart_tty_device_setup.
  destruct (find_free_device_index_cases bm)
    as [(i & Hrange & Hfree & Hlow & ->) | (Hall & ->)].
  - right. exists i. split; [exact Hrange |]. split; [exact Hfree |].
    split; [exact Hlow |].
    assert (E : (i <? 0) = false) by (apply Z.ltb_ge; lia). rewrite E.
    assert (Eu : to_uint i = i)
      by (unfold to_uint, UINT_MAX; apply Z.mod_small; lia).
    assert (Hrel : release_device_index (Z.setbit bm i) i = bm).
    { unfold release_device_index. apply Z.bits_inj'. intros n Hn.
      rewrite Z.clearbit_eqb, Z.setbit_eqb by lia.
      destruct (Z.eqb_spec i n) as [-> | Hne]; cbn; [congruence |].
      apply andb_true_r. }
    cbn [dev_unart tty_index tty_registered]. rewrite Eu.
    destruct (negb (tty_register_device_err e =? 0)).
    + rewrite Hrel. reflexivity.
    + destruct (set_baud_rates_ok (rx (dev_unart d)) (tx (dev_unart d))
                  (c_ispeed drv) (c_ospeed drv) Hi Ho) as [-> ->].
      destruct (negb (tty_add_action_err e =? 0)).
      * unfold unart_tty_device_cleanup. cbn [dev_unart tty_index].
        rewrite Hrel. reflexivity.
      * reflexivity.
  - left. split; [exact Hall |]. reflexivity.
Qed.

(** X14.  [unart_tty_device_setup] leaks no index.  With driver speeds
    of at least 1 it always returns; when it fails (no free index,
    registration refused, or the cleanup action could not be added) the
    index bitmap is exactly as before and the TTY device is not
    registered; when it succeeds the device holds the lowest free index,
    that bit alone is newly set, and RX and TX run at the driver's initial
    speeds with the skew recomputed. *)
Theorem tty_device_setup_outcome drv e bm d :
  1 <= c_ispeed drv -> 1 <= c_ospeed drv ->
  tty_registered d = false ->
  exists err bm' d',
    unart_tty_device_setup drv e bm d = Some (err, bm', d')
    /\ (err <> 0 -> bm' = bm /\ tty_registered d' = false)
    /\ (err = 0 ->
        0 <= tty_index d' < 32
        /\ Z.testbit bm (tty_index d') = false
        /\ (forall j, 0 <= j < tty_index d' -> Z.testbit bm j = true)
        /\ bm' = Z.setbit bm (tty_index d')
        /\ tty_registered d' = true
        /\ rx_period (rx (dev_unart d')) = NSEC_PER_SEC / c_ispeed drv
        /\ tx_period (tx (dev_unart d')) = NSEC_PER_SEC / c_ospeed drv
        /\ skew (rx (dev_unart d'))
           = Z.quot (rx_period (rx (dev_unart d'))
                     * skew_percent (rx (dev_unart d))) 100
        /\ rx_view_of (dev_unart d') = rx_view_of (dev_unart d)).
Proof.
  intros Hi Ho Hreg.
  destruct (unart_tty_device_setup_cases drv e bm d Hi Ho)
    as [(Hall & ->) | (i & Hrange & Hfree & Hlow & ->)].
  - do 3 eexists. split; [reflexivity |]. split.
    + intros _. auto.
    + unfold EBUSY. intros H. discriminate H.
  - destruct (Z.eqb_spec (tty_register_device_err e) 0) as [E1 | E1]; cbn [negb].
    + destruct (Z.eqb_spec (tty_add_action_err e) 0) as [E2 | E2]; cbn [negb].
      * do 3 eexists. split; [reflexivity |]. split; [intros H; congruence |].
        intros _. cbn. repeat split; try assumption; try lia.
      * do 3 eexists. split; [reflexivity |]. split; [auto | intros H; congruence].
    + do 3 eexists. split; [reflexivity |]. split; [auto | intros H; congruence].
Qed.

Lemma tty_device_setup_outcome_witness :
  let d := mk_dev unart_probed 0 false in
  1 <= c_ispeed unart_tty_driver /\ 1 <= c_ospeed unart_tty_driver
  /\ tty_registered d = false
  /\ exists d',
       unart_tty_device_setup unart_tty_driver (mk_tty_setup_env 0 5) 3 d
       = Some (5, 3, d')
       /\ tty_registered d' = false.
Proof.
  cbv zeta.
  assert (H1 : 1 <= c_ispeed unart_tty_driver) by discriminate.
  assert (H2 : 1 <= c_ospeed unart_tty_driver) by discriminate.
  assert (H3 : tty_registered (mk_dev unart_probed 0 false) = false) by reflexivity.
  split; [exact H1 |]. split; [exact H2 |]. split; [exact H3 |].
  destruct (tty_device_setup_outcome unart_tty_driver (mk_tty_setup_env 0 5) 3
              (mk_dev unart_probed 0 false) H1 H2 H3)
    as (err & bm' & d' & Heq & Hfail & _).
  assert (Herr : err = 5).
  { assert (E : option_map (fun x => fst (fst x))
                  (unart_tty_device_setup unart_tty_driver (mk_tty_setup_env 0 5)
                     3 (mk_dev unart_probed 0 false)) = Some 5)
      by (vm_compute; reflexivity).
    rewrite Heq in E. cbn in E. injection E as E. exact E. }
  subst err. destruct Hfail as [-> Hreg]; [discriminate |].
  exists d'. split; [exact Heq | exact Hreg].
Defined.




(** X17.  Outcome of [unart_rx_setup].  It returns 0 exactly when every
    platform call succeeds and the RX line cannot sleep; a line that can
    sleep is refused with -EINVAL.  On success the receiver is idle with
    an empty 32-byte queue, a stopped timer and no delivery pending, and
    [skew_percent] is the "rx-skew" property when there is one, else the
    module parameter, cut down to 100 when larger. *)
Theorem rx_setup_outcome p e r0 :
  let err := fst (unart_rx_setup p e r0) in
  let r := snd (unart_rx_setup p e r0) in
  let wanted := to_uint (match rx_skew_property e with
                         | Some v => v
                         | None => rx_skew p
                         end) in
  (err = 0 <->
   rx_kfifo_alloc_err e = 0 /\ rx_gpiod_get_err e = 0
   /\ rx_gpiod_cansleep e = false /\ rx_request_irq_err e = 0
   /\ rx_add_action_err e = 0)
  /\ (rx_kfifo_alloc_err e = 0 -> rx_gpiod_get_err e = 0 ->
      rx_gpiod_cansleep e = true -> err = - EINVAL)
  /\ (err = 0 ->
      rx_bit_index r = -1 /\ hrtimer_active (rx_timer r) = false
      /\ rx_fifo r = mk_kfifo UNART_RX_FIFO_SIZE []
      /\ push_work r = mk_work false /\ debug_toggle r = 0
      /\ skew_percent r = Z.min wanted 100
      /\ rx_payload r = rx_payload r0 /\ rx_period r = rx_period r0).
Proof.
  cbv zeta. unfold unart_rx_setup.
  destruct (Z.eqb_spec (rx_kfifo_alloc_err e) 0) as [E1 | E1]; cbn [negb fst snd].
  2: { split; [split; [congruence | tauto] |]. split; [congruence | congruence]. }
  destruct (Z.eqb_spec (rx_gpiod_get_err e) 0) as [E2 | E2]; cbn [negb fst snd].
  2: { split; [split; [congruence | tauto] |]. split; [congruence | congruence]. }
  destruct (rx_gpiod_cansleep e) eqn:E3; cbn [fst snd].
  { unfold EINVAL. split; [split; [discriminate | intros H; decompose [and] H; discriminate] |].
    split; [reflexivity | discriminate]. }
  destruct (Z.eqb_spec (rx_request_irq_err e) 0) as [E4 | E4]; cbn [negb fst snd].
  2: { split; [split; [congruence | tauto] |]. split; [discriminate | congruence]. }
  split; [split; [tauto | tauto] |]. split; [discriminate |].
  intros _. cbn.
  assert (Hw : 0 <= to_uint (match rx_skew_property e with
                             | Some v => v
                             | None => rx_skew p
                             end)).
  { unfold to_uint, UINT_MAX. apply Z.mod_pos_bound. lia. }
  unfold clamp. repeat split. lia.
Qed.



Lemma rx_setup_outcome_witness :
  fst (unart_rx_setup params_default probe_ok rx_zeroed) = 0.
Proof.
  pose proof (rx_setup_outcome params_default probe_ok rx_zeroed) as H.
  cbv zeta in H. destruct H as [[_ Hok] _]. apply Hok.
  vm_compute. repeat split.
Defined.

Lemma device_index_allocation_witness :
  Z.testbit (snd (find_free_device_index 5)) (fst (find_free_device_index 5))
  = true
  \/ fst (find_free_device_index 5) = - EBUSY.
Proof.
  destruct (device_index_allocation 5) as [(_ & _ & _ & H & _) | (H & _)];
    [left | right]; exact H.
Defined.


(** ** Properties of module loading *)

(** X18.  Loading the module is all or nothing.  When [unart_init]
    fails, at whatever stage, nothing of the module is left in the
    kernel: neither driver is registered, no device is allocated.  When it
    succeeds, both drivers are registered, the manual device exists exactly
    when all three of its parameters were given, and [manual_pdev] is set
    exactly then.  Either way the GPIO lookup table is removed again.  A
    partial manual configuration makes loading fail with -EINVAL (when the
    drivers could be registered). *)
Theorem module_init_all_or_nothing m e :
  let err := fst (unart_init m e module_unloaded) in
  let s := snd (unart_init m e module_unloaded) in
  (err <> 0 -> module_holds_nothing s)
  /\ (err = 0 ->
      tty_driver_allocated s = true /\ tty_driver_registered s = true
      /\ platform_driver_registered s = true
      /\ manual_device_added s = manual_complete m
      /\ manual_device_allocated s = manual_complete m
      /\ manual_pdev_set s = manual_complete m
      /\ (manual_complete m = true \/ manual_absent m = true))
  /\ gpio_lookup_installed s = false
  /\ (tty_alloc_driver_err e = 0 -> tty_register_driver_err e = 0 ->
      platform_driver_register_err e = 0 ->
      manual_absent m = false -> manual_complete m = false ->
      err = - EINVAL).
Proof.
  cbv zeta. unfold unart_init, unart_tty_register_driver, module_unloaded.
  destruct (Z.eqb_spec (tty_alloc_driver_err e) 0) as [E1 | E1];
    cbn -[unart_manual_device_init].
  2: { rewrite (proj2 (Z.eqb_neq _ _) E1). cbn.
       unfold module_holds_nothing. cbn. intuition congruence. }
  destruct (Z.eqb_spec (tty_register_driver_err e) 0) as [E2 | E2];
    cbn -[unart_manual_device_init].
  2: { rewrite (proj2 (Z.eqb_neq _ _) E2). cbn.
       unfold module_holds_nothing. cbn. intuition congruence. }
  destruct (Z.eqb_spec (platform_driver_register_err e) 0) as [E3 | E3];
    cbn -[unart_manual_device_init].
  2: { unfold module_holds_nothing. cbn. intuition congruence. }
  unfold unart_manual_device_init.
  destruct (manual_absent m) eqn:Ha.
  { assert (Hc : manual_complete m = false).
    { unfold manual_absent, manual_complete in *.
      destruct (param_gpiochip m); [discriminate | reflexivity]. }
    rewrite Hc. cbn. intuition congruence. }
  destruct (manual_complete m) eqn:Hc; cbn [negb].
  2: { unfold EINVAL, module_holds_nothing. cbn.
       split; [auto 10 |]. split; [intros Hz; discriminate Hz |]. auto. }
  destruct (platform_device_alloc_ok e); cbn [negb].
  2: { unfold ENOMEM, module_holds_nothing. cbn.
       split; [auto 10 |]. split; [intros Hz; discriminate Hz |].
       split; [reflexivity | intros; discriminate]. }
  cbn.
  destruct (Z.eqb_spec (platform_device_add_err e) 0) as [E4 | E4]; cbn.
  - split; [congruence |]. split; [auto 10 |].
    split; [reflexivity | intros; discriminate].
  - rewrite (proj2 (Z.eqb_neq _ _) E4). cbn.
    unfold module_holds_nothing. cbn.
    split; [auto 10 |]. split; [congruence |].
    split; [reflexivity | intros; discriminate].
Qed.

Lemma module_init_all_or_nothing_witness :
  fst (unart_init (mk_manual_params None 17 (-1)) (mk_init_env 0 0 0 true 0)
         module_unloaded) = - EINVAL.
Proof.
  pose proof (module_init_all_or_nothing (mk_manual_params None 17 (-1))
                (mk_init_env 0 0 0 true 0)) as H.
  cbv zeta in H. destruct H as (_ & _ & _ & Hpartial).
  apply Hpartial; reflexivity.
Defined.

(** X19.  Unloading undoes loading.  After a successful [unart_init],
    [unart_exit] leaves nothing of the module in the kernel, whether or not
    a manual device was created. *)
Theorem module_exit_releases_everything m e :
  fst (unart_init m e module_unloaded) = 0 ->
  module_holds_nothing (unart_exit (snd (unart_init m e module_unloaded))).
Proof.
  intros Herr. revert Herr.
  unfold unart_init, unart_tty_register_driver, module_unloaded.
  destruct (Z.eqb_spec (tty_alloc_driver_err e) 0) as [E1 | E1];
    cbn -[unart_manual_device_init].
  2: { rewrite (proj2 (Z.eqb_neq _ _) E1). cbn. congruence. }
  destruct (Z.eqb_spec (tty_register_driver_err e) 0) as [E2 | E2];
    cbn -[unart_manual_device_init].
  2: { rewrite (proj2 (Z.eqb_neq _ _) E2). cbn. congruence. }
  destruct (Z.eqb_spec (platform_driver_register_err e) 0) as [E3 | E3];
    cbn -[unart_manual_device_init].
  2: { congruence. }
  unfold unart_manual_device_init.
  destruct (manual_absent m).
  { cbn. intros _. unfold module_holds_nothing. cbn. auto 10. }
  destruct (manual_complete m); cbn [negb].
  2: { unfold EINVAL. cbn. intros Hz. discriminate Hz. }
  destruct (platform_device_alloc_ok e); cbn [negb].
  2: { unfold ENOMEM. cbn. intros Hz. discriminate Hz. }
  cbn.
  destruct (Z.eqb_spec (platform_device_add_err e) 0) as [E4 | E4]; cbn.
  - intros _. unfold module_holds_nothing. cbn. auto 10.
  - rewrite (proj2 (Z.eqb_neq _ _) E4). cbn. congruence.
Qed.

Lemma module_exit_releases_everything_witness :
  module_holds_nothing
    (unart_exit
       (snd (unart_init (mk_manual_params (Some String.EmptyString) 17 27)
               (mk_init_env 0 0 0 true 0) module_unloaded))).
Proof.
  apply (module_exit_releases_everything
           (mk_manual_params (Some String.EmptyString) 17 27)
           (mk_init_env 0 0 0 true 0)).
  reflexivity.
Defined.
